(** * Pellet stove heating watchdog: a model of [heating-watchdog.js]

    The watchdog is one JavaScript module with a handful of global
    variables, a third-party device client ([wyze]) and four tick
    handlers.  The model keeps that shape:

    - the globals ([state], [cycleCount], [lastCycleTime], ...) are the
      fields of [Runtime];
    - the device client, [Date.now] and [sleep] are an [Environment]: an
      oracle with a hidden state of its own, about which nothing is
      assumed;
    - the handlers are programs in a small monad [M] carrying the globals,
      the oracle, the list of gateway calls made so far and the console;
      a rejected promise is an exception, [try]/[catch] is [tryCatch], and
      the value thrown may be null or undefined, on which reading
      [error.message] throws in its turn.

    JavaScript numbers that hold temperatures are modelled as exact
    rationals ([Q]); rounding, NaN and the infinities are outside the model.
    Ticks are run one after another, as the scheduler is meant to run them. *)

From Stdlib Require Import String ZArith QArith List Bool Lia.
Import ListNotations.

Local Open Scope string_scope.
Local Open Scope list_scope.
Local Open Scope Z_scope.

(** ** Data *)

(** An entry of [wyze.getDevices()]. *)
Record Device := mkDevice {
  nickname : string;
  product_type : string;
  mac : string;
  product_model : string
}.

(** What [wyze.getThermostat(mac)] resolves to. *)
Module Thermo.
Record t := mk {
  workingState : string;
  temperature : Q;
  heatSetpoint : Q
}.
End Thermo.

(** An element of [tempHistory]. *)
Module Sample.
Record t := mk {
  timestamp : Z;
  temperature : Q;
  setpoint : Q
}.
End Sample.

Record Config := mkConfig {
  checkIntervalMs : Z;
  cycleWaitMs : Z;
  powerOffDurationMs : Z;
  tempThreshold : Q;
  maxCycles : Z;
  thermostatName : string;
  plugName : string
}.

Definition CONFIG : Config := {|
  checkIntervalMs := 60 * 1000;
  cycleWaitMs := 10 * 60 * 1000;
  powerOffDurationMs := 10 * 1000;
  tempThreshold := 2;
  maxCycles := 3;
  thermostatName := "Living Room";
  plugName := "Living Room"
|}.

Inductive State := MONITORING | WAITING_FOR_IGNITION | WAITING_AFTER_CYCLE | FAILED.

Definition MAX_HISTORY : Z := 10.

(** The module's [let] globals. *)
Record Runtime := mkRuntime {
  state : State;
  cycleCount : Z;
  lastCycleTime : option Z;
  ignitionStartTime : option Z;
  lastWorkingState : option string;
  tempHistory : list Sample.t
}.

Definition initialRuntime : Runtime := {|
  state := MONITORING;
  cycleCount := 0;
  lastCycleTime := None;
  ignitionStartTime := None;
  lastWorkingState := None;
  tempHistory := []
|}.

Definition set_state (s : State) (r : Runtime) : Runtime :=
  mkRuntime s (cycleCount r) (lastCycleTime r) (ignitionStartTime r)
            (lastWorkingState r) (tempHistory r).
Definition set_cycleCount (n : Z) (r : Runtime) : Runtime :=
  mkRuntime (state r) n (lastCycleTime r) (ignitionStartTime r)
            (lastWorkingState r) (tempHistory r).
Definition set_lastCycleTime (t : option Z) (r : Runtime) : Runtime :=
  mkRuntime (state r) (cycleCount r) t (ignitionStartTime r)
            (lastWorkingState r) (tempHistory r).
Definition set_ignitionStartTime (t : option Z) (r : Runtime) : Runtime :=
  mkRuntime (state r) (cycleCount r) (lastCycleTime r) t
            (lastWorkingState r) (tempHistory r).
Definition set_lastWorkingState (s : option string) (r : Runtime) : Runtime :=
  mkRuntime (state r) (cycleCount r) (lastCycleTime r) (ignitionStartTime r)
            s (tempHistory r).
Definition set_tempHistory (h : list Sample.t) (r : Runtime) : Runtime :=
  mkRuntime (state r) (cycleCount r) (lastCycleTime r) (ignitionStartTime r)
            (lastWorkingState r) h.

(** ** The outside world *)

(** What a promise rejects with, or what is thrown: any JavaScript value.
    The program only ever reads [.message] of it, so two cases matter:
    [null] or [undefined], where that read is a TypeError, and every other
    value, where it yields some text. *)
Inductive Reason :=
| Nullish
| Raised (message : string).

(** An awaited promise either resolves to a value or rejects; the rejection
    surfaces at the [await] as an exception carrying the reason. *)
Inductive Response (A : Type) :=
| Resolved (a : A)
| Rejected (reason : Reason).
Arguments Resolved {A} a.
Arguments Rejected {A} reason.

(** The device client, the clock and the timer.  [G] is whatever the world
    remembers between calls; every call may change it.  [getThermostat]
    may resolve to [null]/[undefined] ([None]).  [plugOff] and [plugOn]
    resolve to the client's own verdict on the command; how the client
    reaches it (its retries, its check of the plug) is the client's
    business, and the watchdog reads a true from [plugOn] as the plug
    verified on.  [isPlugOn] is asked once, at startup. *)
Record Environment (G : Type) := mkEnvironment {
  login : G -> Response unit * G;
  getDevices : G -> Response (list Device) * G;
  getThermostat : string -> G -> Response (option Thermo.t) * G;
  plugOff : string -> string -> G -> Response bool * G;
  plugOn : string -> string -> G -> Response bool * G;
  isPlugOn : string -> string -> G -> Response bool * G;
  dateNow : G -> Z * G;
  setTimeout : Z -> G -> G
}.
Arguments login {G} _ _.
Arguments getDevices {G} _ _.
Arguments getThermostat {G} _ _ _.
Arguments plugOff {G} _ _ _ _.
Arguments plugOn {G} _ _ _ _.
Arguments isPlugOn {G} _ _ _ _.
Arguments dateNow {G} _ _.
Arguments setTimeout {G} _ _ _.

(** One gateway call together with what came back. *)
Inductive Event :=
| EvLogin (r : Response unit)
| EvGetDevices (r : Response (list Device))
| EvGetThermostat (mac : string) (r : Response (option Thermo.t))
| EvPlugOff (mac model : string) (r : Response bool)
| EvPlugOn (mac model : string) (r : Response bool)
| EvIsPlugOn (mac model : string) (r : Response bool)
| EvSleep (ms : Z).

(** A plug command is a call that switches the plug. *)
Definition isPlugCommand (e : Event) : bool :=
  match e with
  | EvPlugOff _ _ _ | EvPlugOn _ _ _ => true
  | _ => false
  end.

(** Console lines, [console.log] and [console.error]; the timestamp and
    the interpolated numbers of the messages are left out. *)
Inductive Line :=
| Log (text : string)
| Error (text : string).

Record World (G : Type) := mkWorld {
  runtime : Runtime;
  genv : G;
  trace : list Event;
  console : list Line
}.
Arguments mkWorld {G} _ _ _ _.
Arguments runtime {G} _.
Arguments genv {G} _.
Arguments trace {G} _.
Arguments console {G} _.

(** ** The monad of the handlers *)

Inductive Outcome (A : Type) :=
| Normal (a : A)
| Thrown (reason : Reason)
| Exited (code : Z).
Arguments Normal {A} a.
Arguments Thrown {A} reason.
Arguments Exited {A} code.

Definition M (G A : Type) : Type := World G -> Outcome A * World G.

Definition ret {G A} (a : A) : M G A := fun w => (Normal a, w).

Definition bind {G A B} (m : M G A) (k : A -> M G B) : M G B :=
  fun w =>
    match m w with
    | (Normal a, w') => k a w'
    | (Thrown e, w') => (Thrown e, w')
    | (Exited c, w') => (Exited c, w')
    end.

Notation "x <- m ;; k" := (bind m (fun x => k))
  (at level 61, m at next level, right associativity).
Notation "m ;; k" := (bind m (fun _ => k))
  (at level 61, right associativity).

Definition throw {G A} (reason : Reason) : M G A := fun w => (Thrown reason, w).

Definition processExit {G A} (code : Z) : M G A := fun w => (Exited code, w).

(** [try { m } catch (error) { h error }]: an exit is not caught. *)
Definition tryCatch {G A} (m : M G A) (h : Reason -> M G A) : M G A :=
  fun w =>
    match m w with
    | (Thrown e, w') => h e w'
    | r => r
    end.

Definition gets {G A} (f : Runtime -> A) : M G A :=
  fun w => (Normal (f (runtime w)), w).

Definition modify {G} (f : Runtime -> Runtime) : M G unit :=
  fun w => (Normal tt, mkWorld (f (runtime w)) (genv w) (trace w) (console w)).

Definition log {G} (text : string) : M G unit :=
  fun w => (Normal tt,
            mkWorld (runtime w) (genv w) (trace w) (console w ++ [Log text])).

Definition logError {G} (text : string) : M G unit :=
  fun w => (Normal tt,
            mkWorld (runtime w) (genv w) (trace w) (console w ++ [Error text])).

Definition when {G} (b : bool) (m : M G unit) : M G unit :=
  if b then m else ret tt.

(** Awaiting a gateway call: the world moves on, the call is recorded, and
    a rejection is thrown. *)
Definition await {G A} (call : G -> Response A * G)
    (ev : Response A -> Event) : M G A :=
  fun w =>
    let (r, g) := call (genv w) in
    let w' := mkWorld (runtime w) g (trace w ++ [ev r]) (console w) in
    match r with
    | Resolved a => (Normal a, w')
    | Rejected e => (Thrown e, w')
    end.

(** The TypeError of reading a property of null or undefined. *)
Definition nullMessageError : Reason :=
  Raised "TypeError: Cannot read properties of null (reading 'message')".

(** [error.message]: a TypeError when [error] is null or undefined. *)
Definition messageOf {G} (error : Reason) : M G string :=
  match error with
  | Nullish => throw nullMessageError
  | Raised message => ret message
  end.

(** JavaScript's [x < y] on numbers. *)
Definition Qltb (x y : Q) : bool := negb (Qle_bool y x).

(** A [null] timestamp in a subtraction counts as 0. *)
Definition numberOf (t : option Z) : Z :=
  match t with
  | Some z => z
  | None => 0
  end.

(** [d => d.nickname === name && d.product_type === kind] *)
Definition isDevice (name kind : string) (d : Device) : bool :=
  String.eqb (nickname d) name && String.eqb (product_type d) kind.

(** ** The program *)

Section Watchdog.

Context {G : Type}.
Variable wyze : Environment G.
Variable cfg : Config.

Definition now : M G Z :=
  fun w =>
    let (t, g) := dateNow wyze (genv w) in
    (Normal t, mkWorld (runtime w) g (trace w) (console w)).

Definition sleep (ms : Z) : M G unit :=
  fun w =>
    (Normal tt,
     mkWorld (runtime w) (setTimeout wyze ms (genv w))
             (trace w ++ [EvSleep ms]) (console w)).

(** [tempHistory.push(s); if (tempHistory.length > MAX_HISTORY) tempHistory.shift()] *)
Definition pushShift (s : Sample.t) (h : list Sample.t) : list Sample.t :=
  let h' := h ++ [s] in
  if MAX_HISTORY <? Z.of_nat (length h') then tl h' else h'.

Definition addTempReading (temperature setpoint : Q) : M G unit :=
  ts <- now ;;
  modify (fun r =>
    set_tempHistory (pushShift (Sample.mk ts temperature setpoint) (tempHistory r)) r).

(** [tempHistory = []] *)
Definition clearTempHistory : M G unit := modify (set_tempHistory []).

(** [Math.max(0, tempHistory.length - 3)] *)
Definition compareIndex (h : list Sample.t) : nat :=
  Z.to_nat (Z.max 0 (Z.of_nat (length h) - 3)).

(** Reading a field of [tempHistory[i]] when the index is out of range is a
    TypeError. *)
Definition isTemperatureDeclining : M G bool :=
  h <- gets tempHistory ;;
  if Z.of_nat (length h) <? 2 then ret false
  else
    match nth_error h (length h - 1), nth_error h (compareIndex h) with
    | Some current, Some previous =>
        if Qltb (Sample.setpoint current) (Sample.setpoint previous) then
          log "Setpoint lowered - temp decline expected" ;;
          ret false
        else
          let delta := (Sample.temperature previous - Sample.temperature current)%Q in
          let declining := Qle_bool 1 delta in
          when declining (log "Temperature declining") ;;
          ret declining
    | _, _ => throw (Raised "TypeError: Cannot read properties of undefined")
    end.

Definition getPlugByName (name : string) : M G (option Device) :=
  devices <- await (getDevices wyze) EvGetDevices ;;
  ret (find (isDevice name "Plug") devices).

Definition getThermostatByName (name : string) : M G (option Device) :=
  devices <- await (getDevices wyze) EvGetDevices ;;
  ret (find (isDevice name "Thermostat") devices).

Definition cyclePlug : M G bool :=
  log "Cycling power on plug..." ;;
  plug <- getPlugByName (plugName cfg) ;;
  match plug with
  | None =>
      logError "Could not find plug" ;;
      ret false
  | Some plug =>
      log "Turning OFF plug..." ;;
      offSuccess <- await (plugOff wyze (mac plug) (product_model plug))
                          (EvPlugOff (mac plug) (product_model plug)) ;;
      if negb offSuccess then
        logError "Failed to turn off plug" ;;
        ret false
      else
        log "Waiting..." ;;
        sleep (powerOffDurationMs cfg) ;;
        log "Turning ON plug..." ;;
        onSuccess <- await (plugOn wyze (mac plug) (product_model plug))
                           (EvPlugOn (mac plug) (product_model plug)) ;;
        if negb onSuccess then
          logError "CRITICAL: Failed to turn on plug after 3 attempts!" ;;
          ret false
        else
          log "Power cycle complete (plug verified ON)" ;;
          ret true
  end.

Definition checkThermostat : M G (option Thermo.t) :=
  thermo <- getThermostatByName (thermostatName cfg) ;;
  match thermo with
  | None =>
      logError "Could not find thermostat" ;;
      ret None
  | Some thermo =>
      data <- await (getThermostat wyze (mac thermo)) (EvGetThermostat (mac thermo)) ;;
      ret data
  end.

(** [lastWorkingState !== "heating"] *)
Definition notHeating (s : option string) : bool :=
  match s with
  | Some v => negb (String.eqb v "heating")
  | None => true
  end.

(** The body of [if (isHeating && isBelowThreshold && isDeclining) { ... }]
    in [handleMonitoring]. *)
Definition intervene : M G unit :=
  log "PROBLEM DETECTED: Heating but temperature declining" ;;
  cc <- gets cycleCount ;;
  if maxCycles cfg <=? cc then
    log "Max cycles reached. Entering FAILED state." ;;
    log ">>> USER INTERVENTION REQUIRED <<<" ;;
    modify (set_state FAILED)
  else
    success <- cyclePlug ;;
    when success
      (modify (fun r => set_cycleCount (cycleCount r + 1) r) ;;
       t <- now ;;
       modify (set_lastCycleTime (Some t)) ;;
       modify (set_state WAITING_AFTER_CYCLE) ;;
       log "Power cycle complete. Waiting 10 minutes before next check.").

Definition handleMonitoring : M G unit :=
  data <- checkThermostat ;;
  match data with
  | None => ret tt
  | Some data =>
      let tempDiff := (Thermo.heatSetpoint data - Thermo.temperature data)%Q in
      let isHeating := String.eqb (Thermo.workingState data) "heating" in
      let isBelowThreshold := Qle_bool (tempThreshold cfg) tempDiff in
      lastWS <- gets lastWorkingState ;;
      if isHeating && notHeating lastWS then
        log "Heating started - waiting 10 minutes for ignition" ;;
        t <- now ;;
        modify (set_ignitionStartTime (Some t)) ;;
        clearTempHistory ;;
        modify (set_lastWorkingState (Some (Thermo.workingState data))) ;;
        modify (set_state WAITING_FOR_IGNITION)
      else
        modify (set_lastWorkingState (Some (Thermo.workingState data))) ;;
        addTempReading (Thermo.temperature data) (Thermo.heatSetpoint data) ;;
        isDeclining <- isTemperatureDeclining ;;
        log "Status" ;;
        cc <- gets cycleCount ;;
        when ((0 <? cc) && (negb isHeating || negb isBelowThreshold))
          (log "Heating successful - resetting cycle count" ;;
           modify (set_cycleCount 0)) ;;
        if isHeating && isBelowThreshold && isDeclining then intervene
        else ret tt
  end.

Definition handleWaitingForIgnition : M G unit :=
  t <- now ;;
  start <- gets ignitionStartTime ;;
  let elapsed := t - numberOf start in
  let remaining := cycleWaitMs cfg - elapsed in
  if 0 <? remaining then
    log "Waiting for ignition..."
  else
    log "Ignition wait complete. Resuming monitoring." ;;
    clearTempHistory ;;
    modify (set_state MONITORING).

Definition handleWaitingAfterCycle : M G unit :=
  t <- now ;;
  start <- gets lastCycleTime ;;
  let elapsed := t - numberOf start in
  let remaining := cycleWaitMs cfg - elapsed in
  if 0 <? remaining then
    log "Waiting after cycle..."
  else
    log "Wait period complete. Resuming monitoring." ;;
    clearTempHistory ;;
    modify (set_state MONITORING).

Definition handleFailed : M G unit :=
  data <- checkThermostat ;;
  match data with
  | None => ret tt
  | Some data =>
      let tempDiff := (Thermo.heatSetpoint data - Thermo.temperature data)%Q in
      let isHeating := String.eqb (Thermo.workingState data) "heating" in
      let isBelowThreshold := Qle_bool (tempThreshold cfg) tempDiff in
      log "FAILED STATE" ;;
      if negb isHeating || negb isBelowThreshold then
        log "Stove recovered" ;;
        log "Resetting cycle count and resuming monitoring." ;;
        modify (set_cycleCount 0) ;;
        clearTempHistory ;;
        modify (set_state MONITORING)
      else ret tt
  end.

Definition tick : M G unit :=
  tryCatch
    (s <- gets state ;;
     match s with
     | MONITORING => handleMonitoring
     | WAITING_FOR_IGNITION => handleWaitingForIgnition
     | WAITING_AFTER_CYCLE => handleWaitingAfterCycle
     | FAILED => handleFailed
     end)
    (fun error =>
       message <- messageOf error ;;
       logError "Tick failed").

(** The scheduler: [n] ticks, one after the other.  A tick that throws is
    an unhandled rejection; the run ends there. *)
Fixpoint ticks (n : nat) : M G unit :=
  match n with
  | O => ret tt
  | S n' => tick ;; ticks n'
  end.

(** The top level, [main().catch(...)], up to and including the first
    tick.  When the [.catch] callback throws in its turn, the rejection is
    unhandled, and Node (from version 15 on, by default) ends the process
    with status 1. *)
Definition main : M G unit :=
  tryCatch
   (tryCatch
    (log "=== Heating Watchdog Starting ===" ;;
     log "Config" ;;
     log "Logging in to Wyze API..." ;;
     await (login wyze) EvLogin ;;
     log "Logged in successfully" ;;
     thermo <- getThermostatByName (thermostatName cfg) ;;
     plug <- getPlugByName (plugName cfg) ;;
     match thermo, plug with
     | None, _ =>
         logError "Thermostat not found!" ;;
         processExit 1
     | Some _, None =>
         logError "Plug not found!" ;;
         processExit 1
     | Some thermo, Some plug =>
         log "Found thermostat" ;;
         log "Found plug" ;;
         plugIsOn <- await (isPlugOn wyze (mac plug) (product_model plug))
                           (EvIsPlugOn (mac plug) (product_model plug)) ;;
         if negb plugIsOn then
           log "Plug is OFF at startup - assuming maintenance/vacation mode. Exiting." ;;
           processExit 0
         else
           log "Plug is ON - starting monitoring loop..." ;;
           tick
     end)
    (fun error =>
       message <- messageOf error ;;
       logError "Fatal error" ;;
       processExit 1))
   (fun unhandled => processExit 1).

End Watchdog.

Arguments now {G} wyze _.
Arguments sleep {G} wyze ms _.
Arguments addTempReading {G} wyze temperature setpoint _.

(** ** A scripted environment

    An environment for running the program on concrete inputs.  Its state
    is the clock in milliseconds; every [Date.now()] moves it on by
    [clockStep], [sleep] by the time slept.  The thermostat's reply is a
    function of the clock; the other replies are fixed. *)

Record Script := mkScript {
  clockStep : Z;
  devicesReply : Response (list Device);
  thermostatReply : Z -> Response (option Thermo.t);
  plugOffReply : Response bool;
  plugOnReply : Response bool;
  isPlugOnReply : Response bool
}.

Definition scripted (s : Script) : Environment Z := {|
  login := fun g => (Resolved tt, g);
  getDevices := fun g => (devicesReply s, g);
  getThermostat := fun _ g => (thermostatReply s g, g);
  plugOff := fun _ _ g => (plugOffReply s, g);
  plugOn := fun _ _ g => (plugOnReply s, g);
  isPlugOn := fun _ _ g => (isPlugOnReply s, g);
  dateNow := fun g => (g, g + clockStep s);
  setTimeout := fun ms g => g + ms
|}.

Definition livingRoom : list Device :=
  [ mkDevice "Living Room" "Thermostat" "TH01" "CO_EA1";
    mkDevice "Living Room" "Plug" "PL01" "WLPP1" ].

Definition reading (ws : string) (temperature setpoint : Q) : Thermo.t :=
  Thermo.mk ws temperature setpoint.

(** A house that calls for heat at setpoint 72 and loses one degree every
    ten minutes, starting from 70. *)
Definition cooling (t : Z) : Response (option Thermo.t) :=
  Resolved (Some (reading "heating" (70 - inject_Z t / 600000) 72)).

(** The stove never lights; every gateway call succeeds; ten minutes pass
    between two looks at the clock. *)
Definition stoveOut : Script := {|
  clockStep := 600000;
  devicesReply := Resolved livingRoom;
  thermostatReply := cooling;
  plugOffReply := Resolved true;
  plugOnReply := Resolved true;
  isPlugOnReply := Resolved true
|}.

(** A world whose clock shows [t]. *)
Definition worldAt (r : Runtime) (t : Z) : World Z := mkWorld r t [] [].

(** The last [n] elements of a list. *)
Definition lastn {A} (n : nat) (l : list A) : list A := skipn (length l - n) l.

(** ** Definitions used to state the properties *)

(** The verdict of [isTemperatureDeclining] as a function of the buffer
    alone, without the console lines ([isTemperatureDeclining_run] shows the
    program returns exactly this). *)
Definition declining (h : list Sample.t) : bool :=
  if Z.of_nat (length h) <? 2 then false
  else
    match nth_error h (length h - 1), nth_error h (compareIndex h) with
    | Some current, Some previous =>
        if Qltb (Sample.setpoint current) (Sample.setpoint previous) then false
        else Qle_bool 1 (Sample.temperature previous - Sample.temperature current)
    | _, _ => false
    end.

(** The Trend Detector as the specification words it: at least two samples,
    the current setpoint not lower than the reference's, and a drop of at
    least one degree from the reference, the sample at index
    [max(0, length-3)]. *)
Definition trendSpec (h : list Sample.t) : Prop :=
  (2 <= length h)%nat /\
  exists current reference,
    nth_error h (length h - 1) = Some current /\
    nth_error h (Z.to_nat (Z.max 0 (Z.of_nat (length h) - 3))) = Some reference /\
    ~ (Sample.setpoint current < Sample.setpoint reference)%Q /\
    (1 <= Sample.temperature reference - Sample.temperature current)%Q.

(** The two operations of the History Buffer. *)
Inductive BufferOp :=
| OpRecord (temperature setpoint : Q)
| OpClear.

Definition runOp {G} (wyze : Environment G) (op : BufferOp) : M G unit :=
  match op with
  | OpRecord temperature setpoint => addTempReading wyze temperature setpoint
  | OpClear => clearTempHistory
  end.

Fixpoint runOps {G} (wyze : Environment G) (ops : list BufferOp) : M G unit :=
  match ops with
  | [] => ret tt
  | op :: ops' => runOp wyze op ;; runOps wyze ops'
  end.

(** The samples recorded after the last clear, oldest first, each with the
    timestamp the clock gave it; [acc] holds those recorded before [ops]. *)
Fixpoint sinceClear {G} (wyze : Environment G) (ops : list BufferOp) (g : G)
    (acc : list Sample.t) : list Sample.t :=
  match ops with
  | [] => acc
  | OpRecord temperature setpoint :: ops' =>
      let (ts, g') := dateNow wyze g in
      sinceClear wyze ops' g' (acc ++ [Sample.mk ts temperature setpoint])
  | OpClear :: ops' => sinceClear wyze ops' g []
  end.

(** Replacing the buffer of a world. *)
Definition withHistory {G} (h : list Sample.t) (w : World G) : World G :=
  mkWorld (set_tempHistory h (runtime w)) (genv w) (trace w) (console w).

(** A gateway call that threw. *)
Definition isRejected (e : Event) : bool :=
  match e with
  | EvLogin (Rejected _)
  | EvGetDevices (Rejected _)
  | EvGetThermostat _ (Rejected _)
  | EvPlugOff _ _ (Rejected _)
  | EvPlugOn _ _ (Rejected _)
  | EvIsPlugOn _ _ (Rejected _) => true
  | _ => false
  end.

(** The worlds an execution can be in between two ticks: the process starts
    with the initial globals, and the scheduler runs ticks. *)
Inductive Reachable {G} (wyze : Environment G) (cfg : Config) : World G -> Prop :=
| reach_start (w : World G) :
    runtime w = initialRuntime -> Reachable wyze cfg w
| reach_tick (w : World G) :
    Reachable wyze cfg w -> Reachable wyze cfg (snd (tick wyze cfg w)).

(** What [handleFailed] writes when it finds the stove recovered. *)
Definition recovered (r : Runtime) : Runtime :=
  set_state MONITORING (set_tempHistory [] (set_cycleCount 0 r)).

(** The three ways the power-cycle procedure reports failure, told from the
    replies of the environment in state [g]: the plug is not in the device
    list, the OFF command is refused, or the ON command is refused. *)
Inductive CycleFails {G} (wyze : Environment G) (cfg : Config) (g : G) : Prop :=
| plug_not_found devices g1 :
    getDevices wyze g = (Resolved devices, g1) ->
    find (isDevice (plugName cfg) "Plug") devices = None ->
    CycleFails wyze cfg g
| off_failed devices g1 plug g2 :
    getDevices wyze g = (Resolved devices, g1) ->
    find (isDevice (plugName cfg) "Plug") devices = Some plug ->
    plugOff wyze (mac plug) (product_model plug) g1 = (Resolved false, g2) ->
    CycleFails wyze cfg g
| on_failed devices g1 plug g2 g3 :
    getDevices wyze g = (Resolved devices, g1) ->
    find (isDevice (plugName cfg) "Plug") devices = Some plug ->
    plugOff wyze (mac plug) (product_model plug) g1 = (Resolved true, g2) ->
    plugOn wyze (mac plug) (product_model plug)
           (setTimeout wyze (powerOffDurationMs cfg) g2) = (Resolved false, g3) ->
    CycleFails wyze cfg g.

(** ** Worlds and scripts for the worked examples *)

(** The process just started, its clock at 0. *)
Definition coldStart : World Z := worldAt initialRuntime 0.

(** The world of the [stoveOut] script after [n] ticks from [coldStart]. *)
Definition afterTicks (n : nat) : World Z :=
  snd (ticks (scripted stoveOut) CONFIG n coldStart).

(** The same house with the plug refusing to switch back on. *)
Definition plugStuckOff : Script := {|
  clockStep := 600000;
  devicesReply := Resolved livingRoom;
  thermostatReply := cooling;
  plugOffReply := Resolved true;
  plugOnReply := Resolved false;
  isPlugOnReply := Resolved false
|}.

(** The thermostat has dropped off the account. *)
Definition thermostatGone : Script := {|
  clockStep := 600000;
  devicesReply := Resolved [mkDevice "Living Room" "Plug" "PL01" "WLPP1"];
  thermostatReply := cooling;
  plugOffReply := Resolved true;
  plugOnReply := Resolved true;
  isPlugOnReply := Resolved true
|}.

(** The cloud is down: the thermostat read is rejected. *)
Definition cloudDown : Script := {|
  clockStep := 600000;
  devicesReply := Resolved livingRoom;
  thermostatReply := fun _ => Rejected (Raised "ETIMEDOUT");
  plugOffReply := Resolved true;
  plugOnReply := Resolved true;
  isPlugOnReply := Resolved true
|}.

(** The stove was refilled and the thermostat is satisfied. *)
Definition stoveIdle : Script := {|
  clockStep := 600000;
  devicesReply := Resolved livingRoom;
  thermostatReply := fun _ => Resolved (Some (reading "idle" 72 72));
  plugOffReply := Resolved true;
  plugOnReply := Resolved true;
  isPlugOnReply := Resolved true
|}.

(** Twelve readings, a clear, and two more. *)
Definition sampleOps : list BufferOp :=
  map (fun n => OpRecord (inject_Z (Z.of_nat n)) 72) (seq 60 12)
  ++ [OpClear; OpRecord 68 72; OpRecord 67 72].

(** Four samples: the oldest would look like a decline of five degrees. *)
Definition fourSamples : list Sample.t :=
  [ Sample.mk 0 75 72; Sample.mk 1 70 72; Sample.mk 2 70 72; Sample.mk 3 70 72 ].

(** ** Definitions for the remaining handlers, the power cycle and startup *)

Definition isOffCommand (e : Event) : bool :=
  match e with
  | EvPlugOff _ _ _ => true
  | _ => false
  end.

Definition isOnCommand (e : Event) : bool :=
  match e with
  | EvPlugOn _ _ _ => true
  | _ => false
  end.

(** The replies that carry the power-cycle procedure to its end, from the
    environment in state [g] to the state [g'] it is left in: the plug is
    listed, OFF and, after the pause, ON are both reported done. *)
Inductive CycleSucceeds {G} (wyze : Environment G) (cfg : Config) (g g' : G) : Prop :=
| cycled devices g1 plug g2 :
    getDevices wyze g = (Resolved devices, g1) ->
    find (isDevice (plugName cfg) "Plug") devices = Some plug ->
    plugOff wyze (mac plug) (product_model plug) g1 = (Resolved true, g2) ->
    plugOn wyze (mac plug) (product_model plug)
           (setTimeout wyze (powerOffDurationMs cfg) g2) = (Resolved true, g') ->
    CycleSucceeds wyze cfg g g'.

(** The next [n] readings of the clock, starting from the environment in
    state [g], are all earlier than [deadline]. *)
Fixpoint ClockBelow {G} (wyze : Environment G) (deadline : Z) (n : nat) (g : G) : Prop :=
  match n with
  | O => True
  | S n' =>
      fst (dateNow wyze g) < deadline /\
      ClockBelow wyze deadline n' (snd (dateNow wyze g))
  end.

(** The temperatures and setpoints of a buffer, without the timestamps. *)
Definition readings (h : list Sample.t) : list (Q * Q) :=
  map (fun s => (Sample.temperature s, Sample.setpoint s)) h.

(** What a tick may do to the state. *)
Definition mayFollow (s s' : State) : bool :=
  match s, s' with
  | MONITORING, _ => true
  | WAITING_FOR_IGNITION, (WAITING_FOR_IGNITION | MONITORING) => true
  | WAITING_AFTER_CYCLE, (WAITING_AFTER_CYCLE | MONITORING) => true
  | FAILED, (FAILED | MONITORING) => true
  | _, _ => false
  end.

(** The plug reports on at startup, the stove never lights, and the clock
    stands still except while sleeping. *)
Definition frozenClock : Script := {|
  clockStep := 0;
  devicesReply := Resolved livingRoom;
  thermostatReply := cooling;
  plugOffReply := Resolved true;
  plugOnReply := Resolved true;
  isPlugOnReply := Resolved true
|}.

(** The thermostat read resolves to nothing. *)
Definition emptyRead : Script := {|
  clockStep := 600000;
  devicesReply := Resolved livingRoom;
  thermostatReply := fun _ => Resolved None;
  plugOffReply := Resolved true;
  plugOnReply := Resolved true;
  isPlugOnReply := Resolved true
|}.

(** The house is warm: heating, half a degree below the setpoint. *)
Definition stoveLit : Script := {|
  clockStep := 600000;
  devicesReply := Resolved livingRoom;
  thermostatReply := fun _ => Resolved (Some (reading "heating" (143 # 2) 72));
  plugOffReply := Resolved true;
  plugOnReply := Resolved true;
  isPlugOnReply := Resolved true
|}.

(** A world in MONITORING after one successful cycle, with one sample. *)
Definition watching : World Z :=
  worldAt (mkRuntime MONITORING 1 (Some 0) (Some 0) (Some "heating")
                     [Sample.mk 0 70 72]) 600000.

(** A world waiting since the clock showed 1000. *)
Definition waitingSince (s : State) : World Z :=
  worldAt (mkRuntime s 1 (Some 1000) (Some 1000) (Some "heating")
                     [Sample.mk 0 70 72]) 2000.

(** What the state says about the other globals, between two ticks of an
    execution: a waiting state has its timer set; the heating call that led
    out of MONITORING is still the last working state seen; the ignition
    wait holds no samples; a cycle has been counted while waiting after
    one; FAILED means the counter reached maxCycles. *)
Definition stateInvariant (cfg : Config) (r : Runtime) : Prop :=
  0 <= cycleCount r /\
  match state r with
  | MONITORING => True
  | WAITING_FOR_IGNITION =>
      ignitionStartTime r <> None /\
      lastWorkingState r = Some "heating" /\
      tempHistory r = []
  | WAITING_AFTER_CYCLE =>
      lastCycleTime r <> None /\
      1 <= cycleCount r /\
      lastWorkingState r = Some "heating"
  | FAILED =>
      maxCycles cfg <= cycleCount r /\
      lastWorkingState r = Some "heating"
  end.

(** The gateway's answer at startup that the plug is off. *)
Definition reportsPlugOff (e : Event) : bool :=
  match e with
  | EvIsPlugOn _ _ (Resolved false) => true
  | _ => false
  end.

(** The gateway refuses the login. *)
Definition loginRefused : Environment Z := {|
  login := fun g => (Rejected (Raised "401"), g);
  getDevices := fun g => (Resolved livingRoom, g);
  getThermostat := fun _ g => (cooling g, g);
  plugOff := fun _ _ g => (Resolved true, g);
  plugOn := fun _ _ g => (Resolved true, g);
  isPlugOn := fun _ _ g => (Resolved true, g);
  dateNow := fun g => (g, g);
  setTimeout := fun ms g => g + ms
|}.

(** Startup gets as far as knowing both devices: the login is accepted, the
    two device listings [devices1] and [devices2] come back, the first
    holds the thermostat and the second the plug [plug]; [g2] is the
    environment after the second listing. *)
Definition StartupFinds {G} (wyze : Environment G) (cfg : Config) (g : G)
    (devices1 devices2 : list Device) (plug : Device) (g2 : G) : Prop :=
  exists g0 g1 thermo,
    login wyze g = (Resolved tt, g0) /\
    getDevices wyze g0 = (Resolved devices1, g1) /\
    getDevices wyze g1 = (Resolved devices2, g2) /\
    find (isDevice (thermostatName cfg) "Thermostat") devices1 = Some thermo /\
    find (isDevice (plugName cfg) "Plug") devices2 = Some plug.

(** The ways startup fails before the first tick: a call is rejected (the
    login, either device listing, the plug query), or a device is missing
    from its listing. *)
Inductive StartupFails {G} (wyze : Environment G) (cfg : Config) (g : G) : Prop :=
| login_rejected e g0 :
    login wyze g = (Rejected e, g0) ->
    StartupFails wyze cfg g
| listing_rejected e g0 g1 :
    login wyze g = (Resolved tt, g0) ->
    getDevices wyze g0 = (Rejected e, g1) ->
    StartupFails wyze cfg g
| second_listing_rejected e g0 devices1 g1 g2 :
    login wyze g = (Resolved tt, g0) ->
    getDevices wyze g0 = (Resolved devices1, g1) ->
    getDevices wyze g1 = (Rejected e, g2) ->
    StartupFails wyze cfg g
| device_missing g0 devices1 g1 devices2 g2 :
    login wyze g = (Resolved tt, g0) ->
    getDevices wyze g0 = (Resolved devices1, g1) ->
    getDevices wyze g1 = (Resolved devices2, g2) ->
    find (isDevice (thermostatName cfg) "Thermostat") devices1 = None \/
    find (isDevice (plugName cfg) "Plug") devices2 = None ->
    StartupFails wyze cfg g
| plug_query_rejected devices1 devices2 plug g2 e g3 :
    StartupFinds wyze cfg g devices1 devices2 plug g2 ->
    isPlugOn wyze (mac plug) (product_model plug) g2 = (Rejected e, g3) ->
    StartupFails wyze cfg g.

(** ** Definitions for the catch handlers and the plug's read-back *)

(** A gateway call that rejected with null or undefined. *)
Definition isNullRejection (e : Event) : bool :=
  match e with
  | EvLogin (Rejected Nullish)
  | EvGetDevices (Rejected Nullish)
  | EvGetThermostat _ (Rejected Nullish)
  | EvPlugOff _ _ (Rejected Nullish)
  | EvPlugOn _ _ (Rejected Nullish)
  | EvIsPlugOn _ _ (Rejected Nullish) => true
  | _ => false
  end.


(** The thermostat read rejects with null. *)
Definition nullRejection : Script := {|
  clockStep := 600000;
  devicesReply := Resolved livingRoom;
  thermostatReply := fun _ => Rejected Nullish;
  plugOffReply := Resolved true;
  plugOnReply := Resolved true;
  isPlugOnReply := Resolved true
|}.


(** The plug takes the OFF command and the ON command rejects with null. *)
Definition onRejectsNull : Script := {|
  clockStep := 600000;
  devicesReply := Resolved livingRoom;
  thermostatReply := cooling;
  plugOffReply := Resolved true;
  plugOnReply := Rejected Nullish;
  isPlugOnReply := Resolved true
|}.
(** ** The history buffer *)

Lemma tl_skipn {A} (n : nat) (l : list A) : tl (skipn n l) = skipn (S n) l.
Proof.
  revert l; induction n as [|n IH]; intros [|a l]; simpl; auto.
Qed.

Lemma pushShift_short s h :
  (length h < 10)%nat -> pushShift s h = h ++ [s].
Proof.
  intros Hl. unfold pushShift, MAX_HISTORY.
  rewrite length_app; simpl.
  destruct (Z.ltb_spec 10 (Z.of_nat (length h + 1))); [lia | reflexivity].
Qed.

Lemma pushShift_full s h :
  (10 <= length h)%nat -> pushShift s h = tl h ++ [s].
Proof.
  intros Hl. unfold pushShift, MAX_HISTORY.
  rewrite length_app; simpl.
  destruct (Z.ltb_spec 10 (Z.of_nat (length h + 1))); [| lia].
  destruct h; simpl in *; [lia | reflexivity].
Qed.

Lemma length_lastn {A} (n : nat) (l : list A) :
  length (lastn n l) = Nat.min (length l) n.
Proof. unfold lastn. rewrite length_skipn. lia. Qed.

Lemma pushShift_lastn s acc :
  pushShift s (lastn 10 acc) = lastn 10 (acc ++ [s]).
Proof.
  destruct (Nat.lt_ge_cases (length acc) 10) as [Hlt | Hge].
  - rewrite pushShift_short by (rewrite length_lastn; lia).
    unfold lastn. rewrite length_app; simpl.
    replace (length acc - 10)%nat with 0%nat by lia.
    replace (length acc + 1 - 10)%nat with 0%nat by lia.
    reflexivity.
  - rewrite pushShift_full by (rewrite length_lastn; lia).
    unfold lastn. rewrite tl_skipn, length_app; simpl.
    replace (length acc + 1 - 10)%nat with (S (length acc - 10)) by lia.
    rewrite (skipn_app (S (length acc - 10)) acc [s]).
    replace (S (length acc - 10) - length acc)%nat with 0%nat by lia.
    reflexivity.
Qed.

Lemma lastn_min {A} (l : list A) :
  lastn (Nat.min (length l) 10) l = lastn 10 l.
Proof.
  unfold lastn. f_equal. lia.
Qed.

Lemma runOps_lastn {G} (wyze : Environment G) (ops : list BufferOp) :
  forall (w : World G) (acc : list Sample.t),
    tempHistory (runtime w) = lastn 10 acc ->
    exists w',
      runOps wyze ops w = (Normal tt, w') /\
      tempHistory (runtime w') = lastn 10 (sinceClear wyze ops (genv w) acc).
Proof.
  induction ops as [|op ops IH]; intros w acc Hw.
  - exists w. split; [reflexivity | exact Hw].
  - destruct op as [t s|]; simpl.
    + unfold bind at 1, addTempReading, bind, now, modify.
      destruct (dateNow wyze (genv w)) as [ts g'] eqn:Hnow.
      apply IH. simpl. rewrite Hw. apply pushShift_lastn.
    + unfold bind at 1, clearTempHistory, modify.
      apply (IH (mkWorld (set_tempHistory [] (runtime w)) (genv w) (trace w) (console w)) []).
      reflexivity.
Qed.

(** ** The Trend Detector *)

Lemma compareIndex_nat h : compareIndex h = (length h - 3)%nat.
Proof. unfold compareIndex. lia. Qed.

Lemma Qltb_lt x y : Qltb x y = true <-> (x < y)%Q.
Proof.
  unfold Qltb. rewrite negb_true_iff. split.
  - intros Hb. apply Qnot_le_lt. intros Hle.
    apply Qle_bool_iff in Hle. congruence.
  - intros Hlt. destruct (Qle_bool y x) eqn:Hb; [| reflexivity].
    apply Qle_bool_iff in Hb. exfalso. exact (Qlt_not_le _ _ Hlt Hb).
Qed.

Lemma nth_error_in_range {A} (l : list A) (n : nat) :
  (n < length l)%nat -> exists a, nth_error l n = Some a.
Proof.
  intros Hn. destruct (nth_error l n) as [a|] eqn:E; [now exists a |].
  apply nth_error_None in E. lia.
Qed.

(** The program returns the verdict [declining] computes, and touches
    nothing but the console. *)
Lemma isTemperatureDeclining_run {G} (w : World G) :
  exists c,
    isTemperatureDeclining w =
    (Normal (declining (tempHistory (runtime w))),
     mkWorld (runtime w) (genv w) (trace w) c).
Proof.
  unfold isTemperatureDeclining, declining, bind at 1, gets.
  set (h := tempHistory (runtime w)).
  destruct (Z.ltb_spec (Z.of_nat (length h)) 2) as [Hlt | Hge].
  - exists (console w). destruct w; reflexivity.
  - destruct (nth_error_in_range h (length h - 1)) as [cur Hcur]; [lia |].
    destruct (nth_error_in_range h (compareIndex h)) as [prev Hprev].
    { rewrite compareIndex_nat. lia. }
    rewrite Hcur, Hprev.
    destruct (Qltb (Sample.setpoint cur) (Sample.setpoint prev)).
    + eexists. reflexivity.
    + destruct (Qle_bool 1 (Sample.temperature prev - Sample.temperature cur)).
      * eexists. reflexivity.
      * exists (console w). destruct w; reflexivity.
Qed.

Lemma declining_iff h : declining h = true <-> trendSpec h.
Proof.
  unfold declining, trendSpec.
  fold (compareIndex h).
  destruct (Z.ltb_spec (Z.of_nat (length h)) 2) as [Hlt | Hge].
  - split; [discriminate | intros [Hl _]; lia].
  - destruct (nth_error h (length h - 1)) as [cur|] eqn:Hcur;
      destruct (nth_error h (compareIndex h)) as [prev|] eqn:Hprev;
      try (split; [discriminate | intros [_ [c [r [H1 [H2 _]]]]]; discriminate]).
    destruct (Qltb (Sample.setpoint cur) (Sample.setpoint prev)) eqn:Hsp.
    + split; [discriminate |].
      intros [_ [c [r [H1 [H2 [Hn _]]]]]].
      injection H1 as <-. injection H2 as <-.
      apply Qltb_lt in Hsp. contradiction.
    + split.
      * intros Hd. split; [lia |]. exists cur, prev.
        repeat split; auto.
        -- intros Hlt. apply Qltb_lt in Hlt. congruence.
        -- now apply Qle_bool_iff.
      * intros [_ [c [r [H1 [H2 [_ Hd]]]]]].
        injection H1 as <-. injection H2 as <-.
        now apply Qle_bool_iff.
Qed.

(** C2: the Trend Detector returns normally, leaves the globals and the
    gateway untouched, and answers true exactly when the buffer holds at
    least two samples, the current setpoint is not lower than the reference
    setpoint and the reference temperature exceeds the current one by at
    least one degree, the reference being the sample at index
    [max(0, length-3)].  So it answers false on fewer than two samples, and
    false when the current setpoint is lower than the reference setpoint
    whatever the temperatures. *)
Theorem trend_detector_iff {G} (w : World G) :
  let h := tempHistory (runtime w) in
  exists b w',
    isTemperatureDeclining w = (Normal b, w') /\
    runtime w' = runtime w /\ genv w' = genv w /\ trace w' = trace w /\
    (b = true <-> trendSpec h) /\
    ((length h < 2)%nat -> b = false) /\
    (forall current reference,
        nth_error h (length h - 1) = Some current ->
        nth_error h (Z.to_nat (Z.max 0 (Z.of_nat (length h) - 3))) = Some reference ->
        (Sample.setpoint current < Sample.setpoint reference)%Q ->
        b = false).
Proof.
  intros h. destruct (isTemperatureDeclining_run w) as [c Hrun].
  exists (declining h), (mkWorld (runtime w) (genv w) (trace w) c).
  split; [exact Hrun |].
  do 3 (split; [reflexivity |]).
  split; [apply declining_iff |]. split.
  - intros Hl. destruct (declining h) eqn:Hd; [| reflexivity].
    apply declining_iff in Hd. destruct Hd as [Hd _]. lia.
  - intros current reference Hc Hr Hlt.
    destruct (declining h) eqn:Hd; [| reflexivity].
    apply declining_iff in Hd.
    destruct Hd as [_ [c' [r' [H1 [H2 [Hn _]]]]]].
    rewrite Hc in H1. rewrite Hr in H2.
    injection H1 as <-. injection H2 as <-. contradiction.
Qed.

Lemma declining_same_ends h1 h2 :
  (2 <= length h1)%nat -> (2 <= length h2)%nat ->
  nth_error h1 (length h1 - 1) = nth_error h2 (length h2 - 1) ->
  nth_error h1 (compareIndex h1) = nth_error h2 (compareIndex h2) ->
  declining h1 = declining h2.
Proof.
  intros H1 H2 Hc Hr. unfold declining.
  rewrite Hc, Hr.
  destruct (Z.ltb_spec (Z.of_nat (length h1)) 2); [lia |].
  destruct (Z.ltb_spec (Z.of_nat (length h2)) 2); [lia |].
  reflexivity.
Qed.

Lemma declining_lastn3 h :
  (3 <= length h)%nat -> declining (lastn 3 h) = declining h.
Proof.
  intros Hl. apply declining_same_ends.
  - rewrite length_lastn. lia.
  - lia.
  - rewrite length_lastn. unfold lastn. rewrite nth_error_skipn.
    f_equal. lia.
  - rewrite !compareIndex_nat, length_lastn. unfold lastn.
    rewrite nth_error_skipn. f_equal. lia.
Qed.

(** C10: on a buffer of three or more samples the Trend Detector answers as
    it does on the last three samples alone; in general its answer is fixed
    by the most recent sample and the sample at index [max(0, length-3)], so
    older samples never matter. *)
Theorem trend_detector_last_three {G} :
  (forall w : World G,
      (3 <= length (tempHistory (runtime w)))%nat ->
      fst (isTemperatureDeclining w) =
      fst (isTemperatureDeclining (withHistory (lastn 3 (tempHistory (runtime w))) w))) /\
  (forall w1 w2 : World G,
      let h1 := tempHistory (runtime w1) in
      let h2 := tempHistory (runtime w2) in
      (2 <= length h1)%nat -> (2 <= length h2)%nat ->
      nth_error h1 (length h1 - 1) = nth_error h2 (length h2 - 1) ->
      nth_error h1 (Z.to_nat (Z.max 0 (Z.of_nat (length h1) - 3))) =
      nth_error h2 (Z.to_nat (Z.max 0 (Z.of_nat (length h2) - 3))) ->
      fst (isTemperatureDeclining w1) = fst (isTemperatureDeclining w2)).
Proof.
  split.
  - intros w Hl.
    destruct (isTemperatureDeclining_run w) as [c1 ->].
    destruct (isTemperatureDeclining_run
                (withHistory (lastn 3 (tempHistory (runtime w))) w)) as [c2 ->].
    simpl. now rewrite declining_lastn3.
  - intros w1 w2 h1 h2 Hl1 Hl2 Hc Hr.
    destruct (isTemperatureDeclining_run w1) as [c1 ->].
    destruct (isTemperatureDeclining_run w2) as [c2 ->].
    simpl. f_equal. now apply declining_same_ends.
Qed.

(** ** Running the handlers symbolically *)

Arguments declining : simpl never.
Arguments pushShift : simpl never.
Arguments isTemperatureDeclining : simpl never.

Ltac unfold_prog :=
  unfold tick, handleMonitoring, intervene, handleFailed, handleWaitingForIgnition,
    handleWaitingAfterCycle, checkThermostat, cyclePlug, getThermostatByName,
    getPlugByName, addTempReading, clearTempHistory, await, now, sleep,
    tryCatch, messageOf, bind, gets, modify, log, logError, when, ret, throw.

(** One case split on whatever the run is stuck on: the Trend Detector, a
    reply of the environment, or a test. *)
Ltac split_path :=
  match goal with
  | |- context [isTemperatureDeclining ?w] =>
      let c := fresh "c" in
      destruct (isTemperatureDeclining_run w) as [c ->]
  | |- context [if negb ?x then _ else _] =>
      lazymatch x with
      | context [match _ with _ => _ end] => fail
      | context [if _ then _ else _] => fail
      | _ => destruct x eqn:?
      end
  | |- context [match ?x with _ => _ end] =>
      lazymatch x with
      | context [match _ with _ => _ end] => fail
      | _ => destruct x eqn:?
      end
  | |- context [if ?x then _ else _] =>
      lazymatch x with
      | context [match _ with _ => _ end] => fail
      | context [if _ then _ else _] => fail
      | _ => destruct x eqn:?
      end
  end.

Ltac paths := unfold_prog; cbn; repeat (split_path; cbn in * ).

Ltac open_world w :=
  let r := fresh "r" in
  destruct w as [r ? ? ?]; destruct r; cbn in *.

(** C9: when the device list holds no thermostat of the configured name,
    the thermostat check returns null, and a MONITORING or FAILED tick ends
    there: it returns normally (no exception, no exit) with every global
    (state, cycleCount, the History Buffer, both timers, the last working
    state) as it was.  The only traces are the device listing and one error
    line on the console. *)
Theorem missing_thermostat_skips_tick {G} (wyze : Environment G) (cfg : Config)
    (w : World G) (devices : list Device) (g1 : G) :
  state (runtime w) = MONITORING \/ state (runtime w) = FAILED ->
  getDevices wyze (genv w) = (Resolved devices, g1) ->
  find (isDevice (thermostatName cfg) "Thermostat") devices = None ->
  let skipped :=
    mkWorld (runtime w) g1 (trace w ++ [EvGetDevices (Resolved devices)])
            (console w ++ [Error "Could not find thermostat"]) in
  checkThermostat wyze cfg w = (Normal None, skipped) /\
  tick wyze cfg w = (Normal tt, skipped).
Proof.
  intros Hs Hd Hf. open_world w.
  destruct Hs as [-> | ->]; unfold_prog; cbn; rewrite Hd; cbn; rewrite Hf;
    cbn; split; reflexivity.
Qed.

(** The thermostat check never writes a global and never commands the plug. *)
Lemma checkThermostat_frame {G} (wyze : Environment G) (cfg : Config)
    (w w1 : World G) (o : Outcome (option Thermo.t)) :
  checkThermostat wyze cfg w = (o, w1) ->
  runtime w1 = runtime w /\
  exists evs, trace w1 = trace w ++ evs /\
              forallb (fun e => negb (isPlugCommand e)) evs = true.
Proof.
  destruct w as [r g tr c]. revert w1 o. paths; intros w1 o E;
    injection E as <- <-; cbn; (split; [reflexivity |]);
    rewrite <- ?app_assoc; eexists; (split; [reflexivity | reflexivity]).
Qed.

(** C4: a FAILED tick that reads the thermostat.  If the thermostat is not
    heating, or the temperature is less than tempThreshold below the
    setpoint, the tick resets cycleCount to 0, empties the History Buffer
    and goes to MONITORING.  Otherwise every global stays as it was, FAILED
    included.  Either way no gateway call follows the reading, so the plug
    is not commanded. *)
Theorem failed_tick_recovers_or_stays {G} (wyze : Environment G) (cfg : Config)
    (w w1 : World G) (data : Thermo.t) :
  state (runtime w) = FAILED ->
  checkThermostat wyze cfg w = (Normal (Some data), w1) ->
  exists w',
    tick wyze cfg w = (Normal tt, w') /\
    (Thermo.workingState data <> "heating" \/
     (Thermo.heatSetpoint data - Thermo.temperature data < tempThreshold cfg)%Q ->
     runtime w' = recovered (runtime w) /\
     cycleCount (runtime w') = 0 /\
     tempHistory (runtime w') = [] /\
     state (runtime w') = MONITORING) /\
    (~ (Thermo.workingState data <> "heating" \/
        (Thermo.heatSetpoint data - Thermo.temperature data < tempThreshold cfg)%Q) ->
     runtime w' = runtime w /\ state (runtime w') = FAILED) /\
    trace w' = trace w1 /\
    exists evs, trace w' = trace w ++ evs /\
                forallb (fun e => negb (isPlugCommand e)) evs = true.
Proof.
  intros Hs Hc.
  destruct (checkThermostat_frame wyze cfg w w1 _ Hc) as [Hr Hev].
  unfold tick, tryCatch, bind at 1, gets. cbn. rewrite Hs.
  unfold handleFailed, bind at 1. rewrite Hc.
  set (isHeating := String.eqb (Thermo.workingState data) "heating").
  set (below := Qle_bool (tempThreshold cfg)
                  (Thermo.heatSetpoint data - Thermo.temperature data)).
  assert (Hcond : negb isHeating || negb below = true <->
                  (Thermo.workingState data <> "heating" \/
                   (Thermo.heatSetpoint data - Thermo.temperature data
                    < tempThreshold cfg)%Q)).
  { unfold isHeating, below. rewrite orb_true_iff, !negb_true_iff. split.
    - intros [H | H]; [left | right].
      + now apply String.eqb_neq.
      + apply Qnot_le_lt. intros Hle. apply Qle_bool_iff in Hle. congruence.
    - intros [H | H]; [left | right].
      + now apply String.eqb_neq.
      + destruct (Qle_bool _ _) eqn:Hb; [| reflexivity].
        apply Qle_bool_iff in Hb. exfalso. exact (Qlt_not_le _ _ H Hb). }
  destruct (negb isHeating || negb below) eqn:Hb;
    unfold bind, log, modify, clearTempHistory, ret; cbn;
    eexists; (split; [reflexivity |]); cbn; rewrite Hr.
  - split; [intros _; unfold recovered; cbn; auto |].
    split; [intros Hn; exfalso; apply Hn; now apply Hcond |].
    split; [reflexivity | exact Hev].
  - split; [intros Hy; apply Hcond in Hy; discriminate |].
    split; [intros _; split; [reflexivity | exact Hs] |].
    split; [reflexivity | exact Hev].
Qed.

(** The trace only grows: closes [tr' = tr ++ ?evs] for the trace [tr']
    a run has built from [tr]. *)
Ltac trace_suffix :=
  rewrite <- ?app_assoc; first [reflexivity | symmetry; apply app_nil_r].

(** Closes a path on which the tests taken contradict each other, such as
    the recovery reset together with the intervention. *)
Ltac absurd_tests :=
  exfalso;
  repeat match goal with
         | H : _ && _ = true |- _ => apply andb_true_iff in H; destruct H
         | H : _ || _ = true |- _ => apply orb_true_iff in H; destruct H
         | H : negb _ = true |- _ => apply negb_true_iff in H
         | H : negb _ = false |- _ => apply negb_false_iff in H
         end;
  congruence.

(** A tick returns, or throws the TypeError of its own catch handler; it
    never exits the process. *)
Lemma tick_outcomes {G} (wyze : Environment G) (cfg : Config) (w : World G) :
  exists o w',
    tick wyze cfg w = (o, w') /\
    (o = Normal tt \/ o = Thrown nullMessageError).
Proof.
  open_world w. paths; eexists; eexists; (split; [reflexivity |]); auto.
Qed.

(** X20: what a rejected gateway call does to a tick, in every state.
    State, cycleCount and both timers are after the tick what they were
    before it.  When the rejection carries a value other than null or
    undefined the handler logs the failure and the tick returns; the tick
    returns normally exactly when none of its gateway calls rejected with
    null or undefined, and throws the TypeError of [error.message]
    otherwise. *)
Theorem tick_gateway_failure_keeps_state {G} (wyze : Environment G)
    (cfg : Config) (w : World G) :
  exists o w' evs,
    tick wyze cfg w = (o, w') /\
    trace w' = trace w ++ evs /\
    (existsb isRejected evs = true ->
     state (runtime w') = state (runtime w) /\
     cycleCount (runtime w') = cycleCount (runtime w) /\
     lastCycleTime (runtime w') = lastCycleTime (runtime w) /\
     ignitionStartTime (runtime w') = ignitionStartTime (runtime w) /\
     (o = Normal tt -> exists c, console w' = c ++ [Error "Tick failed"])) /\
    (o = Normal tt <-> existsb isNullRejection evs = false) /\
    (o <> Normal tt -> o = Thrown nullMessageError).
Proof.
  open_world w.
  paths; try solve [absurd_tests];
    eexists; eexists; eexists;
    (split; [reflexivity |]); cbn;
    (split; [trace_suffix |]); cbn;
    (split;
     [ intros Hrej; try discriminate Hrej; subst; repeat split;
       intros Ho; try discriminate Ho; eexists; reflexivity
     | split;
       [ split; intros Ho; try reflexivity; discriminate Ho
       | intros Ho; try reflexivity; congruence ] ]).
Qed.

(** C5: the code at the input where it breaks the claim.  The thermostat
    read of a MONITORING tick rejects with null.  The catch block is
    entered, reads [error.message] and throws a TypeError, so the tick does
    not return: the exception leaves the tick wrapper, and nothing is
    logged.  State and cycleCount are what they were. *)
Theorem tick_null_rejection_escapes :
  fst (tick (scripted nullRejection) CONFIG watching) = Thrown nullMessageError /\
  trace (snd (tick (scripted nullRejection) CONFIG watching)) =
  [EvGetDevices (Resolved livingRoom); EvGetThermostat "TH01" (Rejected Nullish)] /\
  console (snd (tick (scripted nullRejection) CONFIG watching)) = [] /\
  state (runtime (snd (tick (scripted nullRejection) CONFIG watching)))
  = state (runtime watching) /\
  cycleCount (runtime (snd (tick (scripted nullRejection) CONFIG watching)))
  = cycleCount (runtime watching).
Proof. vm_compute. repeat split. Qed.

(** One tick, seen from cycleCount: the bound is kept, and the counter is
    left alone, reset to 0, or raised by one; it is raised only from below
    maxCycles, on the way from MONITORING to WAITING_AFTER_CYCLE, when the
    tick's last gateway call was a plug-ON that reported success. *)
Lemma tick_cycleCount {G} (wyze : Environment G) (cfg : Config) (w : World G) :
  0 <= cycleCount (runtime w) <= maxCycles cfg ->
  exists o w',
    tick wyze cfg w = (o, w') /\
    0 <= cycleCount (runtime w') <= maxCycles cfg /\
    (cycleCount (runtime w') = cycleCount (runtime w) \/
     cycleCount (runtime w') = 0 \/
     (cycleCount (runtime w') = cycleCount (runtime w) + 1 /\
      cycleCount (runtime w) < maxCycles cfg /\
      state (runtime w) = MONITORING /\
      state (runtime w') = WAITING_AFTER_CYCLE /\
      exists pre m md,
        trace w' = trace w ++ pre ++ [EvPlugOn m md (Resolved true)])).
Proof.
  intros Hb. open_world w.
  paths; try solve [absurd_tests];
    eexists; eexists; (split; [reflexivity |]); cbn; (split; [lia |]);
    try (left; reflexivity); try (right; left; reflexivity).
  all: right; right; repeat split; try lia.
  all: eexists; eexists; eexists; rewrite (app_assoc trace0); f_equal;
    rewrite <- ?app_assoc; reflexivity.
Qed.

(** C8: cycleCount is an integer between 0 and maxCycles throughout every
    execution.  It starts at 0; a tick from any world within the bound,
    whether it returns or throws, stays within it, changing the counter
    only by a reset to 0
    or by one step up, the step being taken only from below maxCycles after
    a plug-ON that reported success. *)
Theorem cycle_count_bounded {G} (wyze : Environment G) (cfg : Config) :
  0 <= maxCycles cfg ->
  cycleCount initialRuntime = 0 /\
  (forall w, Reachable wyze cfg w ->
             0 <= cycleCount (runtime w) <= maxCycles cfg) /\
  (forall w,
      0 <= cycleCount (runtime w) <= maxCycles cfg ->
      exists o w',
        tick wyze cfg w = (o, w') /\
        0 <= cycleCount (runtime w') <= maxCycles cfg /\
        (cycleCount (runtime w') = cycleCount (runtime w) \/
         cycleCount (runtime w') = 0 \/
         (cycleCount (runtime w') = cycleCount (runtime w) + 1 /\
          cycleCount (runtime w) < maxCycles cfg /\
          state (runtime w) = MONITORING /\
          state (runtime w') = WAITING_AFTER_CYCLE /\
          exists pre m md,
            trace w' = trace w ++ pre ++ [EvPlugOn m md (Resolved true)]))).
Proof.
  intros Hmax. split; [reflexivity |]. split.
  - intros w Hw. induction Hw as [w Hinit | w Hw IH].
    + rewrite Hinit. cbn. lia.
    + destruct (tick_cycleCount wyze cfg w IH) as [o [w' [Ht [Hb _]]]].
      rewrite Ht. exact Hb.
  - intros w Hb. exact (tick_cycleCount wyze cfg w Hb).
Qed.

(** What holds of the globals between any two ticks of an execution: the
    counter is not negative, and it is 0 whenever the last working state
    seen is not heating. *)
Lemma tick_keeps_idle_zero {G} (wyze : Environment G) (cfg : Config) (w : World G) :
  (0 <= cycleCount (runtime w) /\
   (notHeating (lastWorkingState (runtime w)) = true -> cycleCount (runtime w) = 0)) ->
  let w' := snd (tick wyze cfg w) in
  0 <= cycleCount (runtime w') /\
  (notHeating (lastWorkingState (runtime w')) = true -> cycleCount (runtime w') = 0).
Proof.
  intros [Hpos Hidle]. open_world w.
  paths; try solve [absurd_tests]; (split; [lia |]); auto; intros Hn.
  all: try discriminate Hn.
  all: try reflexivity.
  all: try solve [absurd_tests].
  all: try lia.
  apply negb_true_iff in Hn. rewrite Hn in Heqb0. cbn in Heqb0.
  rewrite andb_true_r in Heqb0. apply Z.ltb_ge in Heqb0. lia.
Qed.

Lemma reachable_idle_zero {G} (wyze : Environment G) (cfg : Config) (w : World G) :
  Reachable wyze cfg w ->
  0 <= cycleCount (runtime w) /\
  (notHeating (lastWorkingState (runtime w)) = true -> cycleCount (runtime w) = 0).
Proof.
  induction 1 as [w Hinit | w Hw IH].
  - rewrite Hinit. cbn. split; [lia | reflexivity].
  - now apply tick_keeps_idle_zero.
Qed.

(** ** The power-cycle procedure *)

(** The procedure writes no global. *)
Lemma cyclePlug_frame {G} (wyze : Environment G) (cfg : Config)
    (w w' : World G) (o : Outcome bool) :
  cyclePlug wyze cfg w = (o, w') -> runtime w' = runtime w.
Proof.
  destruct w as [r g tr c]. revert w' o.
  paths; intros w' o E; injection E as <- <-; reflexivity.
Qed.

(** It returns false exactly in the three failure modes. *)
Lemma cyclePlug_false_iff {G} (wyze : Environment G) (cfg : Config) (w : World G) :
  fst (cyclePlug wyze cfg w) = Normal false <-> CycleFails wyze cfg (genv w).
Proof.
  destruct w as [r g tr c]. cbn [genv]. split.
  - paths; intros E; try discriminate E.
    + eapply on_failed; eassumption.
    + eapply off_failed; eassumption.
    + eapply plug_not_found; eassumption.
  - intros [ds g1 Hd Hf | ds g1 p g2 Hd Hf Hoff | ds g1 p g2 g3 Hd Hf Hoff Hon];
      unfold_prog; cbn; rewrite Hd; cbn; rewrite Hf; cbn;
      try (rewrite Hoff; cbn); try (rewrite Hon; cbn); reflexivity.
Qed.

(** ** MONITORING ticks that reach the intervention *)

Lemma heating_tests (cfg : Config) (data : Thermo.t) :
  Thermo.workingState data = "heating" ->
  (tempThreshold cfg <= Thermo.heatSetpoint data - Thermo.temperature data)%Q ->
  String.eqb (Thermo.workingState data) "heating" = true /\
  Qle_bool (tempThreshold cfg)
           (Thermo.heatSetpoint data - Thermo.temperature data) = true.
Proof.
  intros Hws Hq. split.
  - now apply String.eqb_eq.
  - now apply Qle_bool_iff.
Qed.

(** With the thermostat read, heating seen on the previous tick too, the
    temperature tempThreshold or more below the setpoint and a declining
    buffer, [handleMonitoring] records the sample and enters [intervene]
    with cycleCount untouched. *)
Lemma monitoring_reaches_intervention {G} (wyze : Environment G) (cfg : Config)
    (w w1 : World G) (data : Thermo.t) (ts : Z) (g2 : G) :
  checkThermostat wyze cfg w = (Normal (Some data), w1) ->
  notHeating (lastWorkingState (runtime w)) = false ->
  Thermo.workingState data = "heating" ->
  (tempThreshold cfg <= Thermo.heatSetpoint data - Thermo.temperature data)%Q ->
  dateNow wyze (genv w1) = (ts, g2) ->
  declining (pushShift (Sample.mk ts (Thermo.temperature data) (Thermo.heatSetpoint data))
                       (tempHistory (runtime w))) = true ->
  exists c,
    handleMonitoring wyze cfg w =
    intervene wyze cfg
      (mkWorld
         (set_tempHistory
            (pushShift (Sample.mk ts (Thermo.temperature data) (Thermo.heatSetpoint data))
                       (tempHistory (runtime w)))
            (set_lastWorkingState (Some (Thermo.workingState data)) (runtime w)))
         g2 (trace w1) c).
Proof.
  intros Hc Hedge Hws Hq Hnow Hdecl.
  destruct (checkThermostat_frame wyze cfg w w1 _ Hc) as [Hr _].
  destruct (heating_tests cfg data Hws Hq) as [Hh Hb].
  unfold handleMonitoring, bind at 1. rewrite Hc.
  destruct w1 as [r1 g1 tr1 c1]. cbn in Hr, Hnow. subst r1.
  unfold bind at 1, gets. cbn. rewrite Hh, Hb, Hedge. cbn.
  unfold bind at 1, modify. cbn.
  unfold bind at 1, addTempReading, bind at 1, now. cbn. rewrite Hnow.
  unfold modify. cbn.
  unfold bind at 1.
  match goal with
  | |- context [isTemperatureDeclining ?w] =>
      destruct (isTemperatureDeclining_run w) as [c ->]
  end.
  cbn. rewrite Hdecl.
  unfold bind at 1, log. cbn.
  unfold bind at 1, gets. cbn.
  rewrite andb_false_r.
  unfold bind at 1, when, ret. cbn.
  eexists. reflexivity.
Qed.

(** C3: in an execution (with maxCycles at least 1, as configured), take a
    MONITORING tick that reads the thermostat and finds the intervention
    condition: heating, the temperature tempThreshold or more below the
    setpoint, and a buffer that, with this reading recorded, the Trend
    Detector calls declining.  If cycleCount has reached maxCycles, the tick
    ends in FAILED with cycleCount as it was, and makes no gateway call
    after the thermostat reading: no power cycle, no plug command. *)
Theorem max_cycles_enters_failed {G} (wyze : Environment G) (cfg : Config)
    (w w1 : World G) (data : Thermo.t) (ts : Z) (g2 : G) :
  0 < maxCycles cfg ->
  Reachable wyze cfg w ->
  state (runtime w) = MONITORING ->
  checkThermostat wyze cfg w = (Normal (Some data), w1) ->
  Thermo.workingState data = "heating" ->
  (tempThreshold cfg <= Thermo.heatSetpoint data - Thermo.temperature data)%Q ->
  dateNow wyze (genv w1) = (ts, g2) ->
  declining (pushShift (Sample.mk ts (Thermo.temperature data) (Thermo.heatSetpoint data))
                       (tempHistory (runtime w))) = true ->
  maxCycles cfg <= cycleCount (runtime w) ->
  exists w',
    tick wyze cfg w = (Normal tt, w') /\
    state (runtime w') = FAILED /\
    cycleCount (runtime w') = cycleCount (runtime w) /\
    trace w' = trace w1 /\
    exists evs, trace w' = trace w ++ evs /\
                forallb (fun e => negb (isPlugCommand e)) evs = true.
Proof.
  intros Hmax Hreach Hs Hc Hws Hq Hnow Hdecl Hcc.
  destruct (reachable_idle_zero wyze cfg w Hreach) as [_ Hidle].
  assert (Hedge : notHeating (lastWorkingState (runtime w)) = false).
  { destruct (notHeating (lastWorkingState (runtime w))); [| reflexivity].
    specialize (Hidle eq_refl). lia. }
  destruct (checkThermostat_frame wyze cfg w w1 _ Hc) as [_ Hev].
  destruct (monitoring_reaches_intervention wyze cfg w w1 data ts g2
              Hc Hedge Hws Hq Hnow Hdecl) as [c Hm].
  unfold tick, tryCatch, bind at 1, gets. cbn. rewrite Hs, Hm.
  unfold intervene, bind at 1, log. cbn.
  unfold bind at 1, gets. cbn.
  apply Z.leb_le in Hcc. rewrite Hcc.
  unfold bind, log, modify. cbn.
  eexists. split; [reflexivity |]. cbn.
  repeat split; auto.
Qed.

(** C6: take a MONITORING tick that reaches the intervention (thermostat
    read, heating now and on the previous tick, temperature tempThreshold or
    more below the setpoint, declining buffer) with cycleCount below
    maxCycles, and let the power-cycle procedure fail in one of its three
    ways: plug not found, OFF refused, ON refused.  The tick returns with
    the state still MONITORING and with cycleCount, lastCycleTime and
    ignitionStartTime as they were. *)
Theorem failed_cycle_stays_monitoring {G} (wyze : Environment G) (cfg : Config)
    (w w1 : World G) (data : Thermo.t) (ts : Z) (g2 : G) :
  state (runtime w) = MONITORING ->
  checkThermostat wyze cfg w = (Normal (Some data), w1) ->
  notHeating (lastWorkingState (runtime w)) = false ->
  Thermo.workingState data = "heating" ->
  (tempThreshold cfg <= Thermo.heatSetpoint data - Thermo.temperature data)%Q ->
  dateNow wyze (genv w1) = (ts, g2) ->
  declining (pushShift (Sample.mk ts (Thermo.temperature data) (Thermo.heatSetpoint data))
                       (tempHistory (runtime w))) = true ->
  cycleCount (runtime w) < maxCycles cfg ->
  CycleFails wyze cfg g2 ->
  exists w',
    tick wyze cfg w = (Normal tt, w') /\
    state (runtime w') = MONITORING /\
    cycleCount (runtime w') = cycleCount (runtime w) /\
    lastCycleTime (runtime w') = lastCycleTime (runtime w) /\
    ignitionStartTime (runtime w') = ignitionStartTime (runtime w).
Proof.
  intros Hs Hc Hedge Hws Hq Hnow Hdecl Hcc Hfail.
  destruct (monitoring_reaches_intervention wyze cfg w w1 data ts g2
              Hc Hedge Hws Hq Hnow Hdecl) as [c Hm].
  unfold tick, tryCatch, bind at 1, gets. cbn. rewrite Hs, Hm.
  unfold intervene, bind at 1, log. cbn.
  unfold bind at 1, gets. cbn.
  apply Z.leb_gt in Hcc. rewrite Hcc.
  unfold bind at 1.
  match goal with
  | |- context [cyclePlug wyze cfg ?W] =>
      pose proof (proj2 (cyclePlug_false_iff wyze cfg W) Hfail) as Hret;
      destruct (cyclePlug wyze cfg W) as [o w3] eqn:Hrun;
      apply cyclePlug_frame in Hrun
  end.
  cbn in Hret, Hrun. subst o. cbn.
  exists w3. split; [reflexivity |]. rewrite Hrun. cbn. auto.
Qed.



(** ** The History Buffer across ticks *)

Lemma pushShift_length s h :
  (length h <= 10)%nat -> (length (pushShift s h) <= 10)%nat.
Proof.
  intros Hl. destruct (Nat.lt_ge_cases (length h) 10) as [Hlt | Hge].
  - rewrite pushShift_short by exact Hlt. rewrite length_app. cbn. lia.
  - rewrite pushShift_full by exact Hge. rewrite length_app. cbn.
    destruct h; cbn in *; lia.
Qed.

Lemma tick_keeps_history_bound {G} (wyze : Environment G) (cfg : Config) (w : World G) :
  (length (tempHistory (runtime w)) <= 10)%nat ->
  (length (tempHistory (runtime (snd (tick wyze cfg w)))) <= 10)%nat.
Proof.
  intros Hl. open_world w.
  paths; try lia; now apply pushShift_length.
Qed.

(** C7: the History Buffer is a FIFO of at most ten samples.  Recording
    appends the sample at the end; when that makes eleven, exactly the oldest
    one is dropped.  Starting from the empty buffer, after any sequence of
    record and clear operations the buffer holds the most recent
    [min k 10] of the [k] samples recorded since the last clear, in the
    order they were recorded, and never more than ten; and in every world
    of an execution the buffer holds at most ten samples. *)
Theorem history_buffer_fifo {G} (wyze : Environment G) (cfg : Config) :
  (forall s h, (length h < 10)%nat -> pushShift s h = h ++ [s]) /\
  (forall s h, length h = 10%nat -> pushShift s h = tl h ++ [s]) /\
  (forall (ops : list BufferOp) (w : World G),
      tempHistory (runtime w) = [] ->
      let recorded := sinceClear wyze ops (genv w) [] in
      exists w',
        runOps wyze ops w = (Normal tt, w') /\
        tempHistory (runtime w') = lastn (Nat.min (length recorded) 10) recorded /\
        (length (tempHistory (runtime w')) <= 10)%nat) /\
  (forall w, Reachable wyze cfg w ->
             (length (tempHistory (runtime w)) <= 10)%nat).
Proof.
  split; [| split; [| split]].
  - intros s h Hl. now apply pushShift_short.
  - intros s h Hl. apply pushShift_full. lia.
  - intros ops w Hw recorded.
    destruct (runOps_lastn wyze ops w [] Hw) as [w' [Hrun Hh]].
    exists w'. fold recorded in Hh.
    split; [exact Hrun | split].
    + rewrite lastn_min. exact Hh.
    + rewrite Hh, length_lastn. lia.
  - intros w Hw. induction Hw as [w Hinit | w Hw IH].
    + rewrite Hinit. cbn. lia.
    + now apply tick_keeps_history_bound.
Qed.

(** ** The properties on concrete runs *)

Lemma reachable_ticks {G} (wyze : Environment G) (cfg : Config) (n : nat) :
  forall w, Reachable wyze cfg w -> Reachable wyze cfg (snd (ticks wyze cfg n w)).
Proof.
  induction n as [|n IH]; intros w Hw; [exact Hw |].
  cbn [ticks]. unfold bind.
  destruct (tick_outcomes wyze cfg w) as [o [w1 [Ht Ho]]].
  pose proof (reach_tick wyze cfg w Hw) as Hw1.
  rewrite Ht in *. cbn in Hw1.
  destruct Ho as [-> | ->]; [now apply IH | exact Hw1].
Qed.

Lemma afterTicks_reachable (n : nat) :
  Reachable (scripted stoveOut) CONFIG (afterTicks n).
Proof.
  apply reachable_ticks. now apply reach_start.
Qed.


Lemma trend_detector_iff_witness :
  exists b w',
    isTemperatureDeclining (afterTicks 4) = (Normal b, w') /\
    (b = true <-> trendSpec (tempHistory (runtime (afterTicks 4)))).
Proof.
  destruct (trend_detector_iff (afterTicks 4)) as [b [w' [Hrun [_ [_ [_ [Hiff _]]]]]]].
  exists b, w'. split; [exact Hrun | exact Hiff].
Defined.

Lemma max_cycles_enters_failed_witness :
  state (runtime (afterTicks 12)) = MONITORING /\
  cycleCount (runtime (afterTicks 12)) = maxCycles CONFIG /\
  exists w',
    tick (scripted stoveOut) CONFIG (afterTicks 12) = (Normal tt, w') /\
    state (runtime w') = FAILED.
Proof.
  split; [reflexivity |]. split; [reflexivity |].
  edestruct (max_cycles_enters_failed (scripted stoveOut) CONFIG (afterTicks 12))
    as [w' [Ht [Hs _]]].
  - reflexivity.
  - apply afterTicks_reachable.
  - reflexivity.
  - vm_compute. reflexivity.
  - reflexivity.
  - apply Qle_bool_iff. vm_compute. reflexivity.
  - vm_compute. reflexivity.
  - vm_compute. reflexivity.
  - apply Z.leb_le. reflexivity.
  - exists w'. split; [exact Ht | exact Hs].
Defined.

Lemma failed_tick_recovers_or_stays_witness :
  state (runtime (afterTicks 13)) = FAILED /\
  (exists w',
      tick (scripted stoveIdle) CONFIG (afterTicks 13) = (Normal tt, w') /\
      runtime w' = recovered (runtime (afterTicks 13))) /\
  (exists w',
      tick (scripted stoveOut) CONFIG (afterTicks 13) = (Normal tt, w') /\
      runtime w' = runtime (afterTicks 13)).
Proof.
  split; [reflexivity |]. split.
  - edestruct (failed_tick_recovers_or_stays (scripted stoveIdle) CONFIG (afterTicks 13))
      as [w' [Ht [Hrec _]]].
    + reflexivity.
    + vm_compute. reflexivity.
    + exists w'. split; [exact Ht |]. apply Hrec. left. discriminate.
  - edestruct (failed_tick_recovers_or_stays (scripted stoveOut) CONFIG (afterTicks 13))
      as [w' [Ht [_ [Hstay _]]]].
    + reflexivity.
    + vm_compute. reflexivity.
    + exists w'. split; [exact Ht |]. apply Hstay.
      intros [Hws | Hlt]; [now apply Hws |].
      revert Hlt. vm_compute. discriminate.
Defined.

Lemma tick_gateway_failure_keeps_state_witness :
  exists o w' evs,
    tick (scripted cloudDown) CONFIG (afterTicks 3) = (o, w') /\
    trace w' = trace (afterTicks 3) ++ evs /\
    existsb isRejected evs = true /\
    state (runtime w') = state (runtime (afterTicks 3)) /\
    cycleCount (runtime w') = cycleCount (runtime (afterTicks 3)).
Proof.
  destruct (tick_gateway_failure_keeps_state (scripted cloudDown) CONFIG (afterTicks 3))
    as [o [w' [evs [Ht [Htr [Hkeep _]]]]]].
  assert (Hrej : existsb isRejected evs = true).
  { assert (Hw' : w' = snd (tick (scripted cloudDown) CONFIG (afterTicks 3)))
      by (rewrite Ht; reflexivity).
    assert (Hnew : trace w' =
                   trace (afterTicks 3) ++
                     [EvGetDevices (Resolved livingRoom);
                      EvGetThermostat "TH01" (Rejected (Raised "ETIMEDOUT"))])
      by (rewrite Hw'; vm_compute; reflexivity).
    rewrite Htr in Hnew. apply app_inv_head in Hnew. rewrite Hnew. reflexivity. }
  exists o, w', evs. destruct (Hkeep Hrej) as [Hs [Hc _]]. auto.
Defined.

Lemma failed_cycle_stays_monitoring_witness :
  exists w',
    tick (scripted plugStuckOff) CONFIG (afterTicks 3) = (Normal tt, w') /\
    state (runtime w') = MONITORING /\
    cycleCount (runtime w') = cycleCount (runtime (afterTicks 3)).
Proof.
  edestruct (failed_cycle_stays_monitoring (scripted plugStuckOff) CONFIG (afterTicks 3))
    as [w' [Ht [Hs [Hc _]]]].
  - reflexivity.
  - vm_compute. reflexivity.
  - reflexivity.
  - reflexivity.
  - apply Qle_bool_iff. vm_compute. reflexivity.
  - vm_compute. reflexivity.
  - vm_compute. reflexivity.
  - vm_compute. reflexivity.
  - eapply on_failed; reflexivity.
  - exists w'. auto.
Defined.

Lemma history_buffer_fifo_witness :
  exists w',
    runOps (scripted stoveOut) sampleOps coldStart = (Normal tt, w') /\
    tempHistory (runtime w') =
    lastn 2 (sinceClear (scripted stoveOut) sampleOps (genv coldStart) []) /\
    (length (tempHistory (runtime w')) <= 10)%nat.
Proof.
  destruct (history_buffer_fifo (scripted stoveOut) CONFIG) as [_ [_ [Hrun _]]].
  destruct (Hrun sampleOps coldStart) as [w' [Hr [Hh Hl]]]; [reflexivity |].
  exists w'. split; [exact Hr |]. split; [exact Hh | exact Hl].
Defined.

Lemma cycle_count_bounded_witness :
  0 <= cycleCount (runtime (afterTicks 10)) <= maxCycles CONFIG.
Proof.
  destruct (cycle_count_bounded (scripted stoveOut) CONFIG) as [_ [Hreach _]].
  - vm_compute. discriminate.
  - apply Hreach. apply afterTicks_reachable.
Defined.

Lemma missing_thermostat_skips_tick_witness :
  exists w',
    tick (scripted thermostatGone) CONFIG coldStart = (Normal tt, w') /\
    runtime w' = runtime coldStart.
Proof.
  edestruct (missing_thermostat_skips_tick (scripted thermostatGone) CONFIG coldStart)
    as [_ Ht].
  - left. reflexivity.
  - reflexivity.
  - reflexivity.
  - eexists. split; [exact Ht | reflexivity].
Defined.

Lemma trend_detector_last_three_witness :
  fst (isTemperatureDeclining (worldAt (set_tempHistory fourSamples initialRuntime) 0)) =
  fst (isTemperatureDeclining
         (withHistory (lastn 3 fourSamples)
                      (worldAt (set_tempHistory fourSamples initialRuntime) 0))).
Proof.
  apply (proj1 (@trend_detector_last_three Z)
               (worldAt (set_tempHistory fourSamples initialRuntime) 0)).
  vm_compute. lia.
Defined.

(** ** Worked examples *)

(** From 70 degrees to 68.5 at an unchanged setpoint: declining. *)
Example declining_drop :
  declining [Sample.mk 0 70 72; Sample.mk 60000 (137 # 2) 72] = true.
Proof. reflexivity. Qed.

(** The same drop after the setpoint was lowered: not declining. *)
Example declining_setpoint_lowered :
  declining [Sample.mk 0 70 72; Sample.mk 60000 (139 # 2) 70] = false.
Proof. reflexivity. Qed.

(** Heating, well below the setpoint, two declining samples, no earlier
    cycle: the tick cycles the plug, counts 1 and waits. *)
Example first_power_cycle :
  state (runtime (afterTicks 4)) = WAITING_AFTER_CYCLE /\
  cycleCount (runtime (afterTicks 4)) = 1 /\
  lastCycleTime (runtime (afterTicks 4)) = Some 2410000.
Proof. vm_compute. auto. Qed.

(** After the third cycle the next detection gives up, and FAILED holds
    while the stove stays out. *)
Example third_cycle_then_failed :
  map (fun n => (state (runtime (afterTicks n)), cycleCount (runtime (afterTicks n))))
      [10; 13; 14]%nat =
  [(WAITING_AFTER_CYCLE, 3); (FAILED, 3); (FAILED, 3)].
Proof. vm_compute. reflexivity. Qed.

(** A gateway failure in the middle of the power cycle leaves state and
    counter alone, but the sample of that tick is already in the buffer. *)
Example gateway_failure_after_recording :
  let env := scripted
               (mkScript 600000 (Resolved livingRoom) cooling
                         (Rejected (Raised "ECONNRESET")) (Resolved true) (Resolved true)) in
  let w' := snd (tick env CONFIG (afterTicks 3)) in
  state (runtime w') = state (runtime (afterTicks 3)) /\
  cycleCount (runtime w') = cycleCount (runtime (afterTicks 3)) /\
  length (tempHistory (runtime (afterTicks 3))) = 1%nat /\
  length (tempHistory (runtime w')) = 2%nat.
Proof. vm_compute. auto. Qed.

(** At startup a missing thermostat is fatal, and a plug that is off ends
    the process with status 0 before any tick. *)
Example main_missing_thermostat :
  fst (main (scripted thermostatGone) CONFIG coldStart) = Exited 1.
Proof. vm_compute. reflexivity. Qed.

Example main_plug_off :
  fst (main (scripted plugStuckOff) CONFIG coldStart) = Exited 0.
Proof. vm_compute. reflexivity. Qed.

(** ** The ignition grace period *)

(** X1: a MONITORING tick that reads "heating" when the last working state
    seen was not heating (or none yet) starts the ignition wait, whatever
    the temperatures and the cycle count: the timer is set to the clock,
    the buffer is emptied, no sample is recorded, cycleCount and
    lastCycleTime stay, and no gateway call follows the reading. *)
Theorem ignition_edge_starts_wait {G} (wyze : Environment G) (cfg : Config)
    (w w1 : World G) (data : Thermo.t) (t : Z) (g2 : G) :
  state (runtime w) = MONITORING ->
  checkThermostat wyze cfg w = (Normal (Some data), w1) ->
  Thermo.workingState data = "heating" ->
  notHeating (lastWorkingState (runtime w)) = true ->
  dateNow wyze (genv w1) = (t, g2) ->
  exists w',
    tick wyze cfg w = (Normal tt, w') /\
    runtime w' =
      mkRuntime WAITING_FOR_IGNITION (cycleCount (runtime w))
                (lastCycleTime (runtime w)) (Some t) (Some "heating") [] /\
    trace w' = trace w1 /\
    genv w' = g2.
Proof.
  intros Hs Hc Hws Hedge Hnow.
  destruct (checkThermostat_frame wyze cfg w w1 _ Hc) as [Hr _].
  unfold tick, tryCatch, bind at 1, gets. cbn. rewrite Hs.
  unfold handleMonitoring, bind at 1. rewrite Hc.
  destruct w1 as [r1 g1 tr1 c1]. cbn in Hr, Hnow. subst r1.
  unfold bind at 1, gets. cbn. rewrite Hws, Hedge. cbn.
  unfold bind, log, now, modify, clearTempHistory. cbn. rewrite Hnow. cbn.
  eexists. split; [reflexivity |]. cbn. auto.
Qed.

(** What a tick does in either waiting state, [timer] being the start time
    the handler reads. *)
Lemma waiting_tick_run {G} (wyze : Environment G) (cfg : Config)
    (w : World G) (t : Z) (g1 : G) (timer : option Z) :
  (state (runtime w) = WAITING_FOR_IGNITION /\ timer = ignitionStartTime (runtime w)) \/
  (state (runtime w) = WAITING_AFTER_CYCLE /\ timer = lastCycleTime (runtime w)) ->
  dateNow wyze (genv w) = (t, g1) ->
  exists c,
    tick wyze cfg w =
    (Normal tt,
     mkWorld (if 0 <? cycleWaitMs cfg - (t - numberOf timer)
              then runtime w
              else set_state MONITORING (set_tempHistory [] (runtime w)))
             g1 (trace w) c).
Proof.
  intros Hs Hnow. open_world w.
  destruct Hs as [[-> ->] | [-> ->]]; unfold_prog; cbn; rewrite Hnow; cbn;
    destruct (0 <? _); cbn; eexists; reflexivity.
Qed.

(** X2: a WAITING_FOR_IGNITION tick reads the clock and nothing else.
    While less than cycleWaitMs has passed since ignitionStartTime every
    global stays as it is; from then on the tick empties the buffer and
    returns to MONITORING, changing nothing else.  No gateway call is
    made. *)
Theorem waiting_for_ignition_tick {G} (wyze : Environment G) (cfg : Config)
    (w : World G) (t : Z) (g1 : G) :
  state (runtime w) = WAITING_FOR_IGNITION ->
  dateNow wyze (genv w) = (t, g1) ->
  exists w',
    tick wyze cfg w = (Normal tt, w') /\
    trace w' = trace w /\ genv w' = g1 /\
    (t - numberOf (ignitionStartTime (runtime w)) < cycleWaitMs cfg ->
     runtime w' = runtime w) /\
    (cycleWaitMs cfg <= t - numberOf (ignitionStartTime (runtime w)) ->
     runtime w' = set_state MONITORING (set_tempHistory [] (runtime w))).
Proof.
  intros Hs Hnow.
  destruct (waiting_tick_run wyze cfg w t g1 (ignitionStartTime (runtime w)))
    as [c Ht]; [left; auto | exact Hnow |].
  eexists. split; [exact Ht |]. cbn.
  do 2 (split; [reflexivity |]).
  destruct (Z.ltb_spec 0 (cycleWaitMs cfg - (t - numberOf (ignitionStartTime (runtime w)))));
    split; intros; try reflexivity; lia.
Qed.

(** X3: a WAITING_AFTER_CYCLE tick does the same against lastCycleTime: no
    gateway call; nothing changes until cycleWaitMs has passed since the
    power cycle, and then the buffer is emptied and the state returns to
    MONITORING with cycleCount kept. *)
Theorem waiting_after_cycle_tick {G} (wyze : Environment G) (cfg : Config)
    (w : World G) (t : Z) (g1 : G) :
  state (runtime w) = WAITING_AFTER_CYCLE ->
  dateNow wyze (genv w) = (t, g1) ->
  exists w',
    tick wyze cfg w = (Normal tt, w') /\
    trace w' = trace w /\ genv w' = g1 /\
    (t - numberOf (lastCycleTime (runtime w)) < cycleWaitMs cfg ->
     runtime w' = runtime w) /\
    (cycleWaitMs cfg <= t - numberOf (lastCycleTime (runtime w)) ->
     runtime w' = set_state MONITORING (set_tempHistory [] (runtime w)) /\
     cycleCount (runtime w') = cycleCount (runtime w)).
Proof.
  intros Hs Hnow.
  destruct (waiting_tick_run wyze cfg w t g1 (lastCycleTime (runtime w)))
    as [c Ht]; [right; auto | exact Hnow |].
  eexists. split; [exact Ht |]. cbn.
  do 2 (split; [reflexivity |]).
  destruct (Z.ltb_spec 0 (cycleWaitMs cfg - (t - numberOf (lastCycleTime (runtime w)))));
    split; intros; try (split; reflexivity); try reflexivity; lia.
Qed.

(** X4: any number of ticks spent in a waiting state while the clock stays
    short of the deadline (start time plus cycleWaitMs) change no global
    and make no gateway call. *)
Theorem waiting_ticks_are_idle {G} (wyze : Environment G) (cfg : Config) (n : nat) :
  forall (w : World G) (start : Z),
    (state (runtime w) = WAITING_FOR_IGNITION /\
     ignitionStartTime (runtime w) = Some start) \/
    (state (runtime w) = WAITING_AFTER_CYCLE /\
     lastCycleTime (runtime w) = Some start) ->
    ClockBelow wyze (start + cycleWaitMs cfg) n (genv w) ->
    exists w',
      ticks wyze cfg n w = (Normal tt, w') /\
      runtime w' = runtime w /\
      trace w' = trace w.
Proof.
  induction n as [|n IH]; intros w start Hs Hclock.
  - exists w. auto.
  - destruct Hclock as [Hlt Hrest].
    destruct (dateNow wyze (genv w)) as [t g1] eqn:Hnow. cbn in Hlt, Hrest.
    destruct (waiting_tick_run wyze cfg w t g1 (Some start)) as [c Ht].
    { destruct Hs as [[Hs Ht] | [Hs Ht]]; [left | right]; auto. }
    { exact Hnow. }
    cbn [numberOf] in Ht.
    destruct (Z.ltb_spec 0 (cycleWaitMs cfg - (t - start))) as [_ | Hge]; [| lia].
    cbn [ticks]. unfold bind at 1. rewrite Ht.
    destruct (IH (mkWorld (runtime w) g1 (trace w) c) start) as [w' [Hrun [Hr Htr]]].
    + exact Hs.
    + exact Hrest.
    + exists w'. auto.
Qed.

(** ** Ticks that read the thermostat and leave the plug alone *)

(** X5: when the thermostat is found but its read resolves to nothing
    (null or undefined), a MONITORING or FAILED tick stops there: every
    global is as before, nothing is written to the console, and the only
    gateway calls are the lookup and the read. *)
Theorem empty_reading_skips_tick {G} (wyze : Environment G) (cfg : Config)
    (w : World G) (devices : list Device) (g1 g2 : G) (thermo : Device) :
  state (runtime w) = MONITORING \/ state (runtime w) = FAILED ->
  getDevices wyze (genv w) = (Resolved devices, g1) ->
  find (isDevice (thermostatName cfg) "Thermostat") devices = Some thermo ->
  getThermostat wyze (mac thermo) g1 = (Resolved None, g2) ->
  tick wyze cfg w =
  (Normal tt,
   mkWorld (runtime w) g2
           (trace w ++ [EvGetDevices (Resolved devices);
                        EvGetThermostat (mac thermo) (Resolved None)])
           (console w)).
Proof.
  intros Hs Hd Hf Hread. open_world w.
  destruct Hs as [-> | ->]; unfold_prog; cbn; rewrite Hd; cbn; rewrite Hf;
    cbn; rewrite Hread; cbn; rewrite <- app_assoc; reflexivity.
Qed.

(** A MONITORING tick that is not an ignition start records the reading,
    applies the recovery reset, and then either intervenes or is done. *)
Lemma monitoring_records {G} (wyze : Environment G) (cfg : Config)
    (w w1 : World G) (data : Thermo.t) (ts : Z) (g2 : G) :
  checkThermostat wyze cfg w = (Normal (Some data), w1) ->
  String.eqb (Thermo.workingState data) "heating"
  && notHeating (lastWorkingState (runtime w)) = false ->
  dateNow wyze (genv w1) = (ts, g2) ->
  let isHeating := String.eqb (Thermo.workingState data) "heating" in
  let isBelowThreshold :=
    Qle_bool (tempThreshold cfg) (Thermo.heatSetpoint data - Thermo.temperature data) in
  let h' := pushShift (Sample.mk ts (Thermo.temperature data) (Thermo.heatSetpoint data))
                      (tempHistory (runtime w)) in
  let r1 := set_tempHistory h'
              (set_lastWorkingState (Some (Thermo.workingState data)) (runtime w)) in
  let r2 := if (0 <? cycleCount (runtime w)) && (negb isHeating || negb isBelowThreshold)
            then set_cycleCount 0 r1 else r1 in
  exists c,
    handleMonitoring wyze cfg w =
    (if isHeating && isBelowThreshold && declining h'
     then intervene wyze cfg else ret tt)
      (mkWorld r2 g2 (trace w1) c).
Proof.
  intros Hc Hedge Hnow isHeating isBelowThreshold h' r1 r2.
  destruct (checkThermostat_frame wyze cfg w w1 _ Hc) as [Hr _].
  unfold handleMonitoring, bind at 1. rewrite Hc.
  destruct w1 as [rt1 g1 tr1 c1]. cbn in Hr, Hnow. subst rt1.
  unfold bind at 1, gets. cbn. rewrite Hedge.
  unfold bind at 1, modify. cbn.
  unfold bind at 1, addTempReading, bind at 1, now. cbn. rewrite Hnow.
  unfold modify. cbn.
  unfold bind at 1.
  match goal with
  | |- context [isTemperatureDeclining ?w] =>
      destruct (isTemperatureDeclining_run w) as [c ->]
  end.
  cbn. fold h' isHeating isBelowThreshold.
  unfold bind at 1, when. subst r2 r1.
  destruct ((0 <? cycleCount (runtime w)) && (negb isHeating || negb isBelowThreshold));
    unfold bind, log, modify, ret; cbn; eexists; reflexivity.
Qed.

(** X6: a MONITORING tick that is not an ignition start and does not find
    the intervention condition (not heating, or less than tempThreshold
    below the setpoint, or no decline) stays in MONITORING and makes no
    gateway call after the reading.  It records the sample and the working
    state, leaves both timers alone, and puts a positive cycleCount back to
    0 when the thermostat is not heating or the temperature is within the
    threshold; otherwise cycleCount stays. *)
Theorem monitoring_without_intervention {G} (wyze : Environment G) (cfg : Config)
    (w w1 : World G) (data : Thermo.t) (ts : Z) (g2 : G) :
  state (runtime w) = MONITORING ->
  checkThermostat wyze cfg w = (Normal (Some data), w1) ->
  Thermo.workingState data <> "heating" \/
  notHeating (lastWorkingState (runtime w)) = false ->
  dateNow wyze (genv w1) = (ts, g2) ->
  let h' := pushShift (Sample.mk ts (Thermo.temperature data) (Thermo.heatSetpoint data))
                      (tempHistory (runtime w)) in
  let satisfied :=
    Thermo.workingState data <> "heating" \/
    (Thermo.heatSetpoint data - Thermo.temperature data < tempThreshold cfg)%Q in
  satisfied \/ declining h' = false ->
  exists w',
    tick wyze cfg w = (Normal tt, w') /\
    state (runtime w') = MONITORING /\
    tempHistory (runtime w') = h' /\
    lastWorkingState (runtime w') = Some (Thermo.workingState data) /\
    lastCycleTime (runtime w') = lastCycleTime (runtime w) /\
    ignitionStartTime (runtime w') = ignitionStartTime (runtime w) /\
    (satisfied -> 0 < cycleCount (runtime w) -> cycleCount (runtime w') = 0) /\
    (~ satisfied \/ cycleCount (runtime w) <= 0 ->
     cycleCount (runtime w') = cycleCount (runtime w)) /\
    trace w' = trace w1.
Proof.
  intros Hs Hc Hedge Hnow h' satisfied Hno.
  set (isHeating := String.eqb (Thermo.workingState data) "heating").
  set (below := Qle_bool (tempThreshold cfg)
                  (Thermo.heatSetpoint data - Thermo.temperature data)).
  assert (Hsat : negb isHeating || negb below = true <-> satisfied).
  { unfold isHeating, below, satisfied.
    rewrite orb_true_iff, !negb_true_iff. split.
    - intros [H | H]; [left | right].
      + now apply String.eqb_neq.
      + apply Qnot_le_lt. intros Hle. apply Qle_bool_iff in Hle. congruence.
    - intros [H | H]; [left | right].
      + now apply String.eqb_neq.
      + destruct (Qle_bool _ _) eqn:Hb; [| reflexivity].
        apply Qle_bool_iff in Hb. exfalso. exact (Qlt_not_le _ _ H Hb). }
  assert (Hedge' : isHeating && notHeating (lastWorkingState (runtime w)) = false).
  { destruct Hedge as [Hn | Hl].
    - apply String.eqb_neq in Hn. unfold isHeating. now rewrite Hn.
    - rewrite Hl. apply andb_false_r. }
  assert (Htest : isHeating && below && declining h' = false).
  { destruct Hno as [Hy | Hd].
    - apply Hsat in Hy. destruct isHeating, below; cbn in *; congruence.
    - rewrite Hd. apply andb_false_r. }
  destruct (monitoring_records wyze cfg w w1 data ts g2 Hc Hedge' Hnow) as [c Hm].
  cbv zeta in Hm. fold isHeating below h' in Hm. rewrite Htest in Hm.
  unfold tick, tryCatch, bind at 1, gets. cbn. rewrite Hs, Hm. unfold ret.
  eexists. split; [reflexivity |]. cbn.
  clearbody satisfied.
  destruct (negb isHeating || negb below) eqn:Hb.
  - assert (Hy : satisfied) by (apply Hsat; reflexivity).
    destruct (Z.ltb_spec 0 (cycleCount (runtime w))); cbn;
      repeat split; auto; intros; try lia.
    destruct H0 as [Hn | Hle]; [contradiction | lia].
  - assert (Hn : ~ satisfied) by (intros Hy; apply Hsat in Hy; discriminate Hy).
    rewrite andb_false_r. cbn.
    repeat split; auto; intros; contradiction.
Qed.

(** ** The power cycle, from the plug's side *)

Lemma cyclePlug_succeeds {G} (wyze : Environment G) (cfg : Config)
    (w : World G) (g' : G) :
  CycleSucceeds wyze cfg (genv w) g' ->
  exists w',
    cyclePlug wyze cfg w = (Normal true, w') /\
    runtime w' = runtime w /\ genv w' = g'.
Proof.
  intros [ds g1 p g2 Hd Hf Hoff Hon]. destruct w as [r g tr c]. cbn in Hd.
  unfold_prog; cbn; rewrite Hd; cbn; rewrite Hf; cbn; rewrite Hoff; cbn;
    rewrite Hon; cbn.
  eexists. split; [reflexivity |]. cbn. auto.
Qed.

(** X7: a MONITORING tick that reaches the intervention below maxCycles,
    with the plug listed and OFF and ON both reported done, ends in
    WAITING_AFTER_CYCLE: cycleCount is one higher, lastCycleTime is the
    clock read after the plug came back on, and the buffer keeps the
    samples it had, this tick's included. *)
Theorem successful_cycle_enters_wait {G} (wyze : Environment G) (cfg : Config)
    (w w1 : World G) (data : Thermo.t) (ts t : Z) (g2 g3 g4 : G) :
  state (runtime w) = MONITORING ->
  checkThermostat wyze cfg w = (Normal (Some data), w1) ->
  notHeating (lastWorkingState (runtime w)) = false ->
  Thermo.workingState data = "heating" ->
  (tempThreshold cfg <= Thermo.heatSetpoint data - Thermo.temperature data)%Q ->
  dateNow wyze (genv w1) = (ts, g2) ->
  declining (pushShift (Sample.mk ts (Thermo.temperature data) (Thermo.heatSetpoint data))
                       (tempHistory (runtime w))) = true ->
  cycleCount (runtime w) < maxCycles cfg ->
  CycleSucceeds wyze cfg g2 g3 ->
  dateNow wyze g3 = (t, g4) ->
  exists w',
    tick wyze cfg w = (Normal tt, w') /\
    runtime w' =
      mkRuntime WAITING_AFTER_CYCLE (cycleCount (runtime w) + 1) (Some t)
                (ignitionStartTime (runtime w)) (Some "heating")
                (pushShift (Sample.mk ts (Thermo.temperature data)
                                      (Thermo.heatSetpoint data))
                           (tempHistory (runtime w))) /\
    genv w' = g4.
Proof.
  intros Hs Hc Hedge Hws Hq Hnow Hdecl Hcc Hok Hnow'.
  destruct (monitoring_reaches_intervention wyze cfg w w1 data ts g2
              Hc Hedge Hws Hq Hnow Hdecl) as [c Hm].
  unfold tick, tryCatch, bind at 1, gets. cbn. rewrite Hs, Hm.
  unfold intervene, bind at 1, log. cbn.
  unfold bind at 1, gets. cbn.
  apply Z.leb_gt in Hcc. rewrite Hcc.
  unfold bind at 1.
  match goal with
  | |- context [cyclePlug wyze cfg ?W] =>
      destruct (cyclePlug_succeeds wyze cfg W g3 Hok) as [w3 [Hrun [Hr Hg]]]
  end.
  rewrite Hrun. destruct w3 as [r3 g3' tr3 c3]. cbn in Hr, Hg. subst r3 g3'.
  unfold when, bind, modify, now, log. cbn. rewrite Hnow'. cbn.
  eexists. split; [reflexivity |]. cbn. rewrite Hws. auto.
Qed.

(** X8: what one run of the power-cycle procedure may send.  It writes no
    global; it sends at most one OFF and at most one ON; an ON is sent only
    as the last call, to the device it found under the configured name and
    type, right after an OFF to that same device was reported done and the
    pause of powerOffDurationMs; and it returns true exactly when that ON
    was reported done. *)
Theorem cyclePlug_command_discipline {G} (wyze : Environment G) (cfg : Config)
    (w w' : World G) (o : Outcome bool) :
  cyclePlug wyze cfg w = (o, w') ->
  exists evs,
    trace w' = trace w ++ evs /\
    runtime w' = runtime w /\
    (length (filter isOffCommand evs) <= 1)%nat /\
    (length (filter isOnCommand evs) <= 1)%nat /\
    (existsb isOnCommand evs = true ->
     exists devices plug r,
       find (isDevice (plugName cfg) "Plug") devices = Some plug /\
       evs = [ EvGetDevices (Resolved devices);
               EvPlugOff (mac plug) (product_model plug) (Resolved true);
               EvSleep (powerOffDurationMs cfg);
               EvPlugOn (mac plug) (product_model plug) r ] /\
       (o = Normal true <-> r = Resolved true)) /\
    (o = Normal true -> existsb isOnCommand evs = true).
Proof.
  destruct w as [rt g tr c]. revert w' o.
  paths; intros w' o E; injection E as <- <-; cbn;
    eexists; (split; [trace_suffix |]); cbn;
    (split; [reflexivity |]); (split; [lia |]); (split; [lia |]);
    (split; [intros Hon; try discriminate Hon | intros Ho; try discriminate Ho; reflexivity]).
  all: do 3 eexists; (split; [eassumption |]); (split; [reflexivity |]);
    split; intros Heq; try reflexivity; discriminate Heq.
Qed.

(** ** What a tick may do *)

(** X9: a tick commands the plug from MONITORING only: in the other three
    states its gateway calls contain no plug command.  In any state a tick
    sends at most one OFF and one ON, and an ON only as its last call,
    after an OFF that was reported done and the pause. *)
Theorem tick_plug_commands {G} (wyze : Environment G) (cfg : Config) (w : World G) :
  exists o w' evs,
    tick wyze cfg w = (o, w') /\
    trace w' = trace w ++ evs /\
    (state (runtime w) <> MONITORING -> existsb isPlugCommand evs = false) /\
    (length (filter isOffCommand evs) <= 1)%nat /\
    (length (filter isOnCommand evs) <= 1)%nat /\
    (existsb isOnCommand evs = true ->
     exists pre m md r,
       evs = pre ++ [ EvPlugOff m md (Resolved true);
                      EvSleep (powerOffDurationMs cfg);
                      EvPlugOn m md r ]).
Proof.
  open_world w.
  paths; try solve [absurd_tests];
    eexists; eexists; eexists; (split; [reflexivity |]); cbn;
    (split; [trace_suffix |]); cbn;
    (split; [intros Hs; try reflexivity; congruence |]);
    (split; [lia |]); (split; [lia |]);
    intros Hon; try discriminate Hon.
  all: eexists [_; _; _]; do 3 eexists; reflexivity.
Qed.

(** X10: the transitions a tick can make, whether it returns or throws.
    From MONITORING any state may follow; a waiting state is left only for
    MONITORING, and so is FAILED.
    Whenever a tick moves the state to MONITORING or to
    WAITING_FOR_IGNITION, the buffer is empty afterwards. *)
Theorem tick_transitions {G} (wyze : Environment G) (cfg : Config) (w : World G) :
  exists o w',
    tick wyze cfg w = (o, w') /\
    mayFollow (state (runtime w)) (state (runtime w')) = true /\
    (state (runtime w') <> state (runtime w) ->
     state (runtime w') = MONITORING \/ state (runtime w') = WAITING_FOR_IGNITION ->
     tempHistory (runtime w') = []).
Proof.
  open_world w.
  paths; eexists; eexists; (split; [reflexivity |]); cbn;
    (split; [reflexivity |]); intros Hne [Hst | Hst];
    try reflexivity; try discriminate Hst; congruence.
Qed.

(** X11: in a MONITORING tick that starts from an empty buffer the Trend
    Detector has one sample and no verdict: the tick never commands the
    plug and never ends in WAITING_AFTER_CYCLE or FAILED, whatever the
    thermostat says.  So after every wait the watchdog looks at two
    readings at least before it intervenes. *)
Theorem empty_buffer_never_intervenes {G} (wyze : Environment G) (cfg : Config)
    (w : World G) :
  state (runtime w) = MONITORING ->
  tempHistory (runtime w) = [] ->
  exists o w' evs,
    tick wyze cfg w = (o, w') /\
    trace w' = trace w ++ evs /\
    existsb isPlugCommand evs = false /\
    (state (runtime w') = MONITORING \/ state (runtime w') = WAITING_FOR_IGNITION) /\
    cycleCount (runtime w') <= Z.max 0 (cycleCount (runtime w)).
Proof.
  intros Hs Hh. open_world w. subst.
  assert (Hone : forall s, declining (pushShift s []) = false) by reflexivity.
  paths;
    repeat match goal with
           | H : context [declining (pushShift _ [])] |- _ => rewrite Hone in H
           end;
    try solve [absurd_tests];
    eexists; eexists; eexists; (split; [reflexivity |]); cbn;
    (split; [trace_suffix |]); cbn;
    (split; [reflexivity |]); (split; [auto | lia]).
Qed.

(** ** What the state tells about the other globals *)

Lemma tick_keeps_stateInvariant {G} (wyze : Environment G) (cfg : Config) (w : World G) :
  stateInvariant cfg (runtime w) ->
  stateInvariant cfg (runtime (snd (tick wyze cfg w))).
Proof.
  unfold stateInvariant. open_world w. intros [Hpos Hst].
  paths; try solve [absurd_tests]; cbn in *;
    repeat match goal with
           | H : _ /\ _ |- _ => destruct H
           end;
    repeat match goal with
           | H : (_ <=? _) = true |- _ => apply Z.leb_le in H
           | H : (_ <=? _) = false |- _ => apply Z.leb_gt in H
           | H : _ && _ = true |- _ => apply andb_true_iff in H; destruct H
           | H : String.eqb _ _ = true |- _ => apply String.eqb_eq in H
           end;
    repeat split; auto; try lia; try congruence.
Qed.

(** X12: in every world of an execution the state vouches for the other
    globals.  In WAITING_FOR_IGNITION the ignition timer is set, the last
    working state is "heating" and the buffer is empty; in
    WAITING_AFTER_CYCLE the cycle timer is set, at least one cycle is
    counted and the last working state is "heating"; in FAILED the counter
    has reached maxCycles (and equals it when maxCycles is not negative).
    The waiting handlers therefore never read a timer that is null. *)
Theorem state_vouches_for_globals {G} (wyze : Environment G) (cfg : Config)
    (w : World G) :
  Reachable wyze cfg w ->
  stateInvariant cfg (runtime w) /\
  (0 <= maxCycles cfg -> state (runtime w) = FAILED ->
   cycleCount (runtime w) = maxCycles cfg).
Proof.
  intros Hw.
  assert (Hinv : stateInvariant cfg (runtime w)).
  { induction Hw as [w Hinit | w Hw IH].
    - rewrite Hinit. unfold stateInvariant. cbn. split; [lia | exact I].
    - now apply tick_keeps_stateInvariant. }
  split; [exact Hinv |].
  intros Hmax Hs.
  assert (Hb : 0 <= cycleCount (runtime w) <= maxCycles cfg).
  { clear Hinv Hs. induction Hw as [w Hinit | w Hw IH].
    - rewrite Hinit. cbn. lia.
    - destruct (tick_cycleCount wyze cfg w IH) as [o [w' [Ht [Hb' _]]]].
      rewrite Ht. exact Hb'. }
  destruct Hinv as [_ Hst]. rewrite Hs in Hst. lia.
Qed.

(** ** The Trend Detector and the clock *)

Lemma readings_nth (h1 h2 : list Sample.t) (n : nat) :
  readings h1 = readings h2 ->
  match nth_error h1 n, nth_error h2 n with
  | Some a, Some b =>
      Sample.temperature a = Sample.temperature b /\
      Sample.setpoint a = Sample.setpoint b
  | None, None => True
  | _, _ => False
  end.
Proof.
  intros Hr.
  assert (Hn : nth_error (readings h1) n = nth_error (readings h2) n)
    by now rewrite Hr.
  unfold readings in Hn. rewrite !nth_error_map in Hn.
  destruct (nth_error h1 n), (nth_error h2 n); cbn in Hn;
    try discriminate Hn; [| exact I].
  injection Hn as Ht Hs. auto.
Qed.

(** X13: the Trend Detector never looks at a timestamp: two buffers with
    the same temperatures and setpoints in the same order get the same
    answer, however far apart in time their samples were taken. *)
Theorem trend_detector_ignores_timestamps {G} (w1 w2 : World G) :
  readings (tempHistory (runtime w1)) = readings (tempHistory (runtime w2)) ->
  fst (isTemperatureDeclining w1) = fst (isTemperatureDeclining w2).
Proof.
  intros Hr.
  destruct (isTemperatureDeclining_run w1) as [c1 ->].
  destruct (isTemperatureDeclining_run w2) as [c2 ->].
  cbn. f_equal.
  set (h1 := tempHistory (runtime w1)) in *.
  set (h2 := tempHistory (runtime w2)) in *.
  assert (Hl : length h1 = length h2).
  { apply (f_equal (@length _)) in Hr. unfold readings in Hr.
    now rewrite !length_map in Hr. }
  unfold declining, compareIndex. rewrite <- Hl.
  pose proof (readings_nth h1 h2 (length h1 - 1) Hr) as Hcur.
  pose proof (readings_nth h1 h2
                (Z.to_nat (Z.max 0 (Z.of_nat (length h1) - 3))) Hr) as Hprev.
  destruct (Z.of_nat (length h1) <? 2); [reflexivity |].
  destruct (nth_error h1 (length h1 - 1)), (nth_error h2 (length h1 - 1));
    try contradiction; [| reflexivity].
  destruct (nth_error h1 _), (nth_error h2 _); try contradiction; [| reflexivity].
  destruct Hcur as [Hct Hcs], Hprev as [Hpt Hps].
  now rewrite Hct, Hcs, Hpt, Hps.
Qed.

(** ** Looking devices up *)

(** X14: the two lookups go by exact name and by type.  What the plug
    lookup returns is a listed device with the given nickname and type
    "Plug", the first such in the list; it returns nothing only when the
    list has none; and it never returns what the thermostat lookup returns,
    even though both are asked for the same nickname. *)
Theorem lookups_by_name_and_type {G} (wyze : Environment G) (name : string)
    (w : World G) (devices : list Device) (g1 : G) :
  getDevices wyze (genv w) = (Resolved devices, g1) ->
  let plug := find (isDevice name "Plug") devices in
  let thermo := find (isDevice name "Thermostat") devices in
  fst (getPlugByName wyze name w) = Normal plug /\
  fst (getThermostatByName wyze name w) = Normal thermo /\
  (forall d, plug = Some d ->
             In d devices /\ nickname d = name /\ product_type d = "Plug") /\
  (plug = None ->
   forall d, In d devices -> nickname d = name -> product_type d <> "Plug") /\
  (forall p t, plug = Some p -> thermo = Some t -> p <> t).
Proof.
  intros Hd plug thermo.
  assert (Hdev : forall kind d, isDevice name kind d = true <->
                                nickname d = name /\ product_type d = kind).
  { intros kind d. unfold isDevice.
    rewrite andb_true_iff, !String.eqb_eq. reflexivity. }
  split; [| split; [| split; [| split]]].
  - unfold getPlugByName, bind, await, ret. rewrite Hd. reflexivity.
  - unfold getThermostatByName, bind, await, ret. rewrite Hd. reflexivity.
  - intros d Hp. apply find_some in Hp. destruct Hp as [Hin Hm].
    apply Hdev in Hm. tauto.
  - intros Hnone d Hin Hn Hty.
    pose proof (find_none _ _ Hnone d Hin) as Hm.
    assert (Hy : isDevice name "Plug" d = true) by (apply Hdev; auto).
    congruence.
  - intros p t Hp Ht Heq. subst t.
    apply find_some in Hp. apply find_some in Ht.
    destruct Hp as [_ Hp], Ht as [_ Ht].
    apply Hdev in Hp. apply Hdev in Ht.
    destruct Hp as [_ Hp], Ht as [_ Ht]. rewrite Hp in Ht. discriminate Ht.
Qed.

(** ** Startup *)

Ltac unfold_main := unfold main, processExit.

(** X15: however the gateway behaves, startup ends in one of three ways:
    [main] returns after the first tick, or the process exits with status 0
    or with status 1.  The status is 0 exactly when the gateway answered
    that the plug is off, and then no global has been written and the plug
    has not been commanded.  [main] returns only when no gateway call
    rejected with null or undefined.  Status 1 without such a rejection
    means startup failed before the first tick: no global written, no plug
    command.  With one, status 1 is also how the two catch handlers fail:
    the [.catch] callback throwing on the null reason, or the first tick
    throwing, which may already have switched the plug. *)
Theorem main_exit_codes {G} (wyze : Environment G) (cfg : Config) (w : World G) :
  exists o w' evs,
    main wyze cfg w = (o, w') /\
    trace w' = trace w ++ evs /\
    (o = Normal tt \/ o = Exited 0 \/ o = Exited 1) /\
    (o = Exited 0 <-> existsb reportsPlugOff evs = true) /\
    (o = Exited 0 ->
     runtime w' = runtime w /\ existsb isPlugCommand evs = false) /\
    (o = Normal tt -> existsb isNullRejection evs = false) /\
    (o = Exited 1 -> existsb isNullRejection evs = false ->
     runtime w' = runtime w /\ existsb isPlugCommand evs = false).
Proof.
  open_world w. unfold_main.
  paths; try solve [absurd_tests];
    eexists; eexists; eexists; (split; [reflexivity |]); cbn;
    (split; [trace_suffix |]); cbn;
    (split; [auto |]);
    (split; [split; intros Ho; try reflexivity; discriminate Ho |]);
    (split; [intros Ho; try discriminate Ho; split; reflexivity |]);
    (split; [intros Ho; try discriminate Ho; reflexivity |]);
    intros Ho Hnull; try discriminate Ho; try discriminate Hnull;
    split; reflexivity.
Qed.

Ltac unfold_startup :=
  unfold main, getThermostatByName, getPlugByName, tryCatch, messageOf, bind,
    log, logError, await, ret, throw, processExit.

(** X16: a plug that is off at startup ends the process with status 0
    before any tick: the gateway calls are the login, the two device
    listings and the plug query, no global is written, and the plug is
    left as it is. *)
Theorem main_plug_off_exits_clean {G} (wyze : Environment G) (cfg : Config)
    (w : World G) (devices1 devices2 : list Device) (plug : Device) (g2 g3 : G) :
  StartupFinds wyze cfg (genv w) devices1 devices2 plug g2 ->
  isPlugOn wyze (mac plug) (product_model plug) g2 = (Resolved false, g3) ->
  exists w',
    main wyze cfg w = (Exited 0, w') /\
    runtime w' = runtime w /\
    genv w' = g3 /\
    trace w' =
    trace w ++ [ EvLogin (Resolved tt);
                 EvGetDevices (Resolved devices1);
                 EvGetDevices (Resolved devices2);
                 EvIsPlugOn (mac plug) (product_model plug) (Resolved false) ].
Proof.
  intros [g0 [g1 [th [Hl [Hd1 [Hd2 [Hft Hfp]]]]]]] Hq.
  destruct w as [r g tr c]. cbn in Hl.
  unfold_startup; cbn; rewrite Hl; cbn; rewrite Hd1; cbn; rewrite Hd2; cbn;
    rewrite Hft, Hfp; cbn; rewrite Hq; cbn.
  eexists. split; [reflexivity |]. cbn.
  rewrite <- !app_assoc. auto.
Qed.

(** X17: a startup that cannot reach its devices is fatal.  If the login,
    a device listing or the plug query is rejected, or the thermostat or
    the plug is not in its listing, the process exits with status 1; no
    global is written, no tick runs and the plug is not commanded. *)
Theorem main_startup_failure_is_fatal {G} (wyze : Environment G) (cfg : Config)
    (w : World G) :
  StartupFails wyze cfg (genv w) ->
  exists w' evs,
    main wyze cfg w = (Exited 1, w') /\
    runtime w' = runtime w /\
    trace w' = trace w ++ evs /\
    existsb isPlugCommand evs = false /\
    forallb (fun e => match e with EvGetThermostat _ _ => false | _ => true end) evs = true.
Proof.
  destruct w as [r g tr c]. cbn [genv].
  intros [e g0 Hl
         | e g0 g1 Hl Hd1
         | e g0 ds1 g1 g2 Hl Hd1 Hd2
         | g0 ds1 g1 ds2 g2 Hl Hd1 Hd2 Hmiss
         | ds1 ds2 plug g2 e g3 [g0 [g1 [th [Hl [Hd1 [Hd2 [Hft Hfp]]]]]]] Hq];
    unfold_startup; cbn; rewrite Hl; cbn;
    try (rewrite Hd1; cbn); try (rewrite Hd2; cbn).
  1-3: destruct e; cbn; eexists; eexists; (split; [reflexivity |]); cbn;
       (split; [reflexivity |]); (split; [trace_suffix |]); split; reflexivity.
  - destruct (find (isDevice (thermostatName cfg) "Thermostat") ds1) eqn:Hft;
      [destruct (find (isDevice (plugName cfg) "Plug") ds2) eqn:Hfp |];
      [destruct Hmiss; discriminate | |];
      cbn; eexists; eexists; (split; [reflexivity |]); cbn;
      (split; [reflexivity |]); (split; [trace_suffix |]); split; reflexivity.
  - rewrite Hft, Hfp; cbn; rewrite Hq; cbn.
    destruct e; cbn; eexists; eexists; (split; [reflexivity |]); cbn;
      (split; [reflexivity |]); (split; [trace_suffix |]); split; reflexivity.
Qed.

(** X18: with both devices found and the plug reported on, startup hands
    over to the state machine: the first tick runs on the globals as they
    were, after the four startup calls.  When that tick returns, [main]
    returns what it returns; when it throws (the TypeError of its own catch
    handler), the process exits with status 1, with the globals and the
    gateway calls as the tick left them. *)
Theorem main_runs_first_tick {G} (wyze : Environment G) (cfg : Config)
    (w : World G) (devices1 devices2 : list Device) (plug : Device) (g2 g3 : G) :
  StartupFinds wyze cfg (genv w) devices1 devices2 plug g2 ->
  isPlugOn wyze (mac plug) (product_model plug) g2 = (Resolved true, g3) ->
  exists c o w1,
    tick wyze cfg
         (mkWorld (runtime w) g3
                  (trace w ++ [ EvLogin (Resolved tt);
                                EvGetDevices (Resolved devices1);
                                EvGetDevices (Resolved devices2);
                                EvIsPlugOn (mac plug) (product_model plug)
                                           (Resolved true) ])
                  c) = (o, w1) /\
    ((o = Normal tt /\ main wyze cfg w = (Normal tt, w1)) \/
     (o = Thrown nullMessageError /\
      exists w',
        main wyze cfg w = (Exited 1, w') /\
        runtime w' = runtime w1 /\ trace w' = trace w1)).
Proof.
  intros [g0 [g1 [th [Hl [Hd1 [Hd2 [Hft Hfp]]]]]]] Hq.
  destruct w as [r g tr c]. cbn in Hl. cbn [runtime trace].
  unfold main. set (T := tick wyze cfg).
  unfold getThermostatByName, getPlugByName, tryCatch, bind, log, logError,
    await, ret, processExit.
  cbn. rewrite Hl. cbn. rewrite Hd1. cbn. rewrite Hd2. cbn.
  rewrite Hft, Hfp. cbn. rewrite Hq. cbn.
  rewrite <- !app_assoc. cbn [app].
  match goal with
  | |- context [T ?W] =>
      destruct (tick_outcomes wyze cfg W) as [o [w1 [Ht Ho]]];
      fold T in Ht; rewrite Ht
  end.
  eexists. exists o, w1. split; [exact Ht |].
  destruct Ho as [-> | ->]; [left | right]; split; try reflexivity.
  cbn. eexists. split; [reflexivity |]. cbn. auto.
Qed.

(** ** The further properties on concrete runs *)

Lemma ignition_edge_starts_wait_witness :
  exists w',
    tick (scripted stoveOut) CONFIG coldStart = (Normal tt, w') /\
    state (runtime w') = WAITING_FOR_IGNITION /\
    ignitionStartTime (runtime w') = Some 0.
Proof.
  edestruct (ignition_edge_starts_wait (scripted stoveOut) CONFIG coldStart)
    as [w' [Ht [Hr _]]].
  - reflexivity.
  - vm_compute. reflexivity.
  - reflexivity.
  - reflexivity.
  - reflexivity.
  - exists w'. split; [exact Ht |]. rewrite Hr. split; reflexivity.
Defined.

Lemma waiting_for_ignition_tick_witness :
  exists w',
    tick (scripted stoveOut) CONFIG (waitingSince WAITING_FOR_IGNITION) = (Normal tt, w') /\
    runtime w' = runtime (waitingSince WAITING_FOR_IGNITION).
Proof.
  edestruct (waiting_for_ignition_tick (scripted stoveOut) CONFIG
               (waitingSince WAITING_FOR_IGNITION)) as [w' [Ht [_ [_ [Hstay _]]]]].
  - reflexivity.
  - reflexivity.
  - exists w'. split; [exact Ht |]. apply Hstay. vm_compute. reflexivity.
Defined.

Lemma waiting_after_cycle_tick_witness :
  exists w',
    tick (scripted stoveOut) CONFIG (worldAt (runtime (waitingSince WAITING_AFTER_CYCLE)) 700000)
    = (Normal tt, w') /\
    state (runtime w') = MONITORING /\
    tempHistory (runtime w') = [] /\
    cycleCount (runtime w') = 1.
Proof.
  edestruct (waiting_after_cycle_tick (scripted stoveOut) CONFIG
               (worldAt (runtime (waitingSince WAITING_AFTER_CYCLE)) 700000))
    as [w' [Ht [_ [_ [_ Hgo]]]]].
  - reflexivity.
  - reflexivity.
  - exists w'. split; [exact Ht |].
    destruct Hgo as [Hr _]; [vm_compute; discriminate |].
    rewrite Hr. repeat split; reflexivity.
Defined.

Lemma waiting_ticks_are_idle_witness :
  exists w',
    ticks (scripted frozenClock) CONFIG 5 (waitingSince WAITING_FOR_IGNITION)
    = (Normal tt, w') /\
    runtime w' = runtime (waitingSince WAITING_FOR_IGNITION) /\
    trace w' = [].
Proof.
  apply (waiting_ticks_are_idle (scripted frozenClock) CONFIG 5
           (waitingSince WAITING_FOR_IGNITION) 1000).
  - left. split; reflexivity.
  - cbn. repeat split; reflexivity.
Defined.

Lemma empty_reading_skips_tick_witness :
  tick (scripted emptyRead) CONFIG coldStart =
  (Normal tt,
   mkWorld initialRuntime 0
           [EvGetDevices (Resolved livingRoom); EvGetThermostat "TH01" (Resolved None)]
           []).
Proof.
  apply (empty_reading_skips_tick (scripted emptyRead) CONFIG coldStart livingRoom 0 0
           (mkDevice "Living Room" "Thermostat" "TH01" "CO_EA1")).
  - left. reflexivity.
  - reflexivity.
  - reflexivity.
  - reflexivity.
Defined.

Lemma monitoring_without_intervention_witness :
  exists w',
    tick (scripted stoveLit) CONFIG watching = (Normal tt, w') /\
    state (runtime w') = MONITORING /\
    cycleCount (runtime watching) = 1 /\
    cycleCount (runtime w') = 0.
Proof.
  edestruct (monitoring_without_intervention (scripted stoveLit) CONFIG watching)
    as [w' [Ht [Hs [_ [_ [_ [_ [Hreset _]]]]]]]].
  - reflexivity.
  - vm_compute. reflexivity.
  - right. reflexivity.
  - reflexivity.
  - left. right. vm_compute. reflexivity.
  - exists w'. split; [exact Ht |]. split; [exact Hs |]. split; [reflexivity |].
    apply Hreset.
    + right. vm_compute. reflexivity.
    + reflexivity.
Defined.

Lemma successful_cycle_enters_wait_witness :
  exists w',
    tick (scripted stoveOut) CONFIG watching = (Normal tt, w') /\
    state (runtime w') = WAITING_AFTER_CYCLE /\
    cycleCount (runtime w') = 2 /\
    lastCycleTime (runtime w') = Some 1210000.
Proof.
  edestruct (successful_cycle_enters_wait (scripted stoveOut) CONFIG watching)
    as [w' [Ht [Hr _]]].
  - reflexivity.
  - vm_compute. reflexivity.
  - reflexivity.
  - reflexivity.
  - apply Qle_bool_iff. vm_compute. reflexivity.
  - reflexivity.
  - vm_compute. reflexivity.
  - vm_compute. reflexivity.
  - eapply cycled; reflexivity.
  - reflexivity.
  - exists w'. split; [exact Ht |]. rewrite Hr. repeat split; reflexivity.
Defined.

Lemma cyclePlug_command_discipline_witness :
  exists evs,
    trace (snd (cyclePlug (scripted plugStuckOff) CONFIG watching)) =
    trace watching ++ evs /\
    (length (filter isOnCommand evs) <= 1)%nat.
Proof.
  destruct (cyclePlug_command_discipline (scripted plugStuckOff) CONFIG watching
              (snd (cyclePlug (scripted plugStuckOff) CONFIG watching))
              (fst (cyclePlug (scripted plugStuckOff) CONFIG watching)))
    as [evs [Htr [_ [_ [Hon _]]]]].
  - vm_compute. reflexivity.
  - exists evs. split; [exact Htr | exact Hon].
Defined.

Lemma tick_plug_commands_witness :
  exists o w' evs,
    tick (scripted stoveOut) CONFIG (waitingSince FAILED) = (o, w') /\
    trace w' = trace (waitingSince FAILED) ++ evs /\
    existsb isPlugCommand evs = false.
Proof.
  destruct (tick_plug_commands (scripted stoveOut) CONFIG (waitingSince FAILED))
    as [o [w' [evs [Ht [Htr [Hquiet _]]]]]].
  exists o, w', evs. split; [exact Ht |]. split; [exact Htr |].
  apply Hquiet. discriminate.
Defined.

Lemma tick_transitions_witness :
  exists o w',
    tick (scripted stoveOut) CONFIG (waitingSince FAILED) = (o, w') /\
    mayFollow FAILED (state (runtime w')) = true.
Proof.
  destruct (tick_transitions (scripted stoveOut) CONFIG (waitingSince FAILED))
    as [o [w' [Ht [Hm _]]]].
  exists o, w'. split; [exact Ht | exact Hm].
Defined.

Lemma empty_buffer_never_intervenes_witness :
  exists o w' evs,
    tick (scripted stoveOut) CONFIG (afterTicks 2) = (o, w') /\
    trace w' = trace (afterTicks 2) ++ evs /\
    existsb isPlugCommand evs = false.
Proof.
  destruct (empty_buffer_never_intervenes (scripted stoveOut) CONFIG (afterTicks 2))
    as [o [w' [evs [Ht [Htr [Hquiet _]]]]]].
  - vm_compute. reflexivity.
  - vm_compute. reflexivity.
  - exists o, w', evs. auto.
Defined.

Lemma state_vouches_for_globals_witness :
  stateInvariant CONFIG (runtime (afterTicks 13)) /\
  (state (runtime (afterTicks 13)) = FAILED ->
   cycleCount (runtime (afterTicks 13)) = maxCycles CONFIG).
Proof.
  destruct (state_vouches_for_globals (scripted stoveOut) CONFIG (afterTicks 13))
    as [Hinv Hfailed].
  - apply afterTicks_reachable.
  - split; [exact Hinv |]. apply Hfailed. vm_compute. discriminate.
Defined.

Lemma trend_detector_ignores_timestamps_witness :
  fst (isTemperatureDeclining
         (worldAt (set_tempHistory [Sample.mk 0 70 72; Sample.mk 60000 68 72]
                                   initialRuntime) 0)) =
  fst (isTemperatureDeclining
         (worldAt (set_tempHistory [Sample.mk 0 70 72; Sample.mk 86400000 68 72]
                                   initialRuntime) 0)).
Proof.
  apply (@trend_detector_ignores_timestamps Z).
  reflexivity.
Defined.

Lemma lookups_by_name_and_type_witness :
  fst (getPlugByName (scripted stoveOut) "Living Room" coldStart) =
  Normal (Some (mkDevice "Living Room" "Plug" "PL01" "WLPP1")) /\
  fst (getThermostatByName (scripted stoveOut) "Living Room" coldStart) =
  Normal (Some (mkDevice "Living Room" "Thermostat" "TH01" "CO_EA1")).
Proof.
  destruct (lookups_by_name_and_type (scripted stoveOut) "Living Room" coldStart
              livingRoom 0) as [Hp [Ht _]].
  - reflexivity.
  - split; [exact Hp | exact Ht].
Defined.

Lemma main_exit_codes_witness :
  exists o w' evs,
    main loginRefused CONFIG coldStart = (o, w') /\
    trace w' = trace coldStart ++ evs /\
    (o = Normal tt \/ o = Exited 0 \/ o = Exited 1).
Proof.
  destruct (main_exit_codes loginRefused CONFIG coldStart)
    as [o [w' [evs [Hm [Htr [Ho _]]]]]].
  exists o, w', evs. auto.
Defined.

Lemma main_plug_off_exits_clean_witness :
  exists w',
    main (scripted plugStuckOff) CONFIG coldStart = (Exited 0, w') /\
    runtime w' = runtime coldStart.
Proof.
  edestruct (main_plug_off_exits_clean (scripted plugStuckOff) CONFIG coldStart)
    as [w' [Hm [Hr _]]].
  - do 3 eexists. repeat split; reflexivity.
  - reflexivity.
  - exists w'. split; [exact Hm | exact Hr].
Defined.

Lemma main_startup_failure_is_fatal_witness :
  (exists w', main (scripted thermostatGone) CONFIG coldStart = (Exited 1, w')) /\
  (exists w', main loginRefused CONFIG coldStart = (Exited 1, w')).
Proof.
  split.
  - destruct (main_startup_failure_is_fatal (scripted thermostatGone) CONFIG coldStart)
      as [w' [evs [Hm _]]].
    + eapply device_missing; try reflexivity. left. reflexivity.
    + exists w'. exact Hm.
  - destruct (main_startup_failure_is_fatal loginRefused CONFIG coldStart)
      as [w' [evs [Hm _]]].
    + eapply login_rejected. reflexivity.
    + exists w'. exact Hm.
Defined.

Lemma main_runs_first_tick_witness :
  exists w',
    main (scripted stoveOut) CONFIG coldStart = (Normal tt, w') /\
    state (runtime w') = WAITING_FOR_IGNITION.
Proof.
  edestruct (main_runs_first_tick (scripted stoveOut) CONFIG coldStart)
    as [c [o [w1 [Ht Hm]]]].
  - do 3 eexists. repeat split; reflexivity.
  - reflexivity.
  - vm_compute in Ht. injection Ht as <- <-.
    destruct Hm as [[_ Hm] | [Ho _]]; [| discriminate Ho].
    eexists. split; [exact Hm | reflexivity].
Defined.

(** ** Recording and judging in one tick *)

(** X19: what the Trend Detector compares right after a reading has been
    recorded into a buffer of one to ten samples: the new reading against
    the sample before the last one of the old buffer (the reading of two
    recordings ago), or against the only old sample when there is just one.
    This holds whether or not the recording evicted the oldest sample. *)
Theorem detector_compares_two_back (s : Sample.t) (h : list Sample.t) :
  (1 <= length h <= 10)%nat ->
  exists reference,
    nth_error h (length h - 2) = Some reference /\
    nth_error (pushShift s h) (length (pushShift s h) - 1) = Some s /\
    declining (pushShift s h) =
    negb (Qltb (Sample.setpoint s) (Sample.setpoint reference))
    && Qle_bool 1 (Sample.temperature reference - Sample.temperature s).
Proof.
  intros Hl.
  destruct (nth_error_in_range h (length h - 2)) as [ref Href]; [lia |].
  exists ref. split; [exact Href |].
  assert (Hshape :
            length (pushShift s h) = Nat.min (length h + 1) 10 /\
            nth_error (pushShift s h) (length (pushShift s h) - 1) = Some s /\
            nth_error (pushShift s h) (length (pushShift s h) - 3) = Some ref).
  { destruct (Nat.lt_ge_cases (length h) 10) as [Hlt | Hge].
    - rewrite pushShift_short by exact Hlt.
      rewrite length_app. cbn [length].
      split; [lia |]. split.
      + rewrite nth_error_app2 by lia.
        replace (length h + 1 - 1 - length h)%nat with 0%nat by lia. reflexivity.
      + rewrite nth_error_app1 by lia.
        replace (length h + 1 - 3)%nat with (length h - 2)%nat by lia.
        exact Href.
    - rewrite pushShift_full by exact Hge.
      assert (Htl : length (tl h) = 9%nat) by (destruct h; cbn in *; lia).
      rewrite length_app, Htl. cbn [length Nat.add Nat.sub].
      split; [lia |]. split.
      + rewrite nth_error_app2 by lia. rewrite Htl. reflexivity.
      + rewrite nth_error_app1 by lia.
        replace (length h - 2)%nat with 8%nat in Href by lia.
        destruct h; [discriminate Href | exact Href]. }
  destruct Hshape as [Hlen [Hcur Hprev]].
  split; [exact Hcur |].
  unfold declining. rewrite compareIndex_nat, Hcur, Hprev.
  destruct (Z.ltb_spec (Z.of_nat (length (pushShift s h))) 2) as [Hlt | _]; [lia |].
  destruct (Qltb (Sample.setpoint s) (Sample.setpoint ref)); reflexivity.
Qed.

Lemma detector_compares_two_back_witness :
  declining (pushShift (Sample.mk 3 68 72)
                       [Sample.mk 0 75 72; Sample.mk 1 69 72; Sample.mk 2 70 72]) =
  negb (Qltb 72 72) && Qle_bool 1 (69 - 68).
Proof.
  destruct (detector_compares_two_back
              (Sample.mk 3 68 72)
              [Sample.mk 0 75 72; Sample.mk 1 69 72; Sample.mk 2 70 72])
    as [ref [Href [_ Hd]]].
  - cbn. lia.
  - injection Href as <-. exact Hd.
Defined.

(** ** The catch handlers on a null rejection *)

(** The ON command of the first tick rejects with null: the tick throws,
    [main] exits with status 1, and the plug has been switched off. *)
Example first_tick_throws_after_plug_off :
  fst (main (scripted onRejectsNull) CONFIG watching) = Exited 1 /\
  filter isPlugCommand (trace (snd (main (scripted onRejectsNull) CONFIG watching))) =
  [EvPlugOff "PL01" "WLPP1" (Resolved true); EvPlugOn "PL01" "WLPP1" (Rejected Nullish)].
Proof. vm_compute. auto. Qed.

(** The same rejection with an error object is logged and the tick
    returns. *)
Example tick_logs_error_object :
  fst (tick (scripted cloudDown) CONFIG watching) = Normal tt /\
  console (snd (tick (scripted cloudDown) CONFIG watching)) = [Error "Tick failed"].
Proof. vm_compute. auto. Qed.
